(** * pyspider/result/convert.py: normalisation of scraper results

    A shallow embedding of the result validators and of the storage
    converter, followed by the properties of the specification that were
    checked against them.

    Conventions of the model:
    - a Python [dict] with [str] keys is a [gmap string value];
    - a Python [str] is the sequence of its code points; the model covers
      the code points below 256, one [ascii] each;
    - a Python [float] is a primitive binary64 float;
    - a call that may raise is a computation in [outcome];
    - [time.time()] is read once per call of [validate_published]; its
      reading is the argument [now];
    - [dateutil.parser.parse(txt, fuzzy=True).timestamp()] belongs to an
      external library; it is the section variable [parse_timestamp]. *)

From Stdlib Require Import PrimFloat Ascii String.
From stdpp Require Import gmap strings list fin_maps.

Open Scope string_scope.

(** ** Values, exceptions, outcomes *)

Inductive value :=
| VNone
| VBool (b : bool)
| VInt (n : Z)
| VFloat (x : float)
| VStr (s : string).

Abbreviation dict := (gmap string value).

Inductive exn :=
| ValueError (msg : string)
| AttributeError (ty attr : string)
| TypeError (msg : string)
| KeyError (key : string)
| ParserError
| OverflowError.

Inductive outcome (A : Type) :=
| Return (a : A)
| Raise (e : exn).

Arguments Return {A} a.
Arguments Raise {A} e.

#[global] Instance outcome_ret : MRet outcome := @Return.
#[global] Instance outcome_bind : MBind outcome := λ A B f c,
  match c with
  | Return a => f a
  | Raise e => Raise e
  end.

(** ** The Python operations the module uses *)

Module Py.

(** [type(v).__name__] *)
Definition type_name (v : value) : string :=
  match v with
  | VNone => "NoneType"
  | VBool _ => "bool"
  | VInt _ => "int"
  | VFloat _ => "float"
  | VStr _ => "str"
  end.

(** [v is None] *)
Definition is_none (v : value) : bool :=
  match v with VNone => true | _ => false end.

(** [bool(v)]: none, false, zero and the empty string are falsy; a NaN
    is truthy, a negative zero is falsy. *)
Definition truthy (v : value) : bool :=
  match v with
  | VNone => false
  | VBool b => b
  | VInt n => negb (n =? 0)%Z
  | VFloat x => negb (PrimFloat.eqb x 0%float)
  | VStr s => negb (String.eqb s "")
  end.

(** [a or b]: the first operand when it is truthy, else the second one,
    whatever it is. *)
Definition or_ (a b : value) : value := if truthy a then a else b.

(** [not v] *)
Definition not_ (v : value) : bool := negb (truthy v).

(** [d.get(k, dflt)] *)
Definition get (d : dict) (k : string) (dflt : value) : value :=
  default dflt (d !! k).

(** [d[k]] *)
Definition getitem (d : dict) (k : string) : outcome value :=
  match d !! k with
  | Some v => Return v
  | None => Raise (KeyError k)
  end.

(** A dict display [{**base, k1: v1, ..., kn: vn}]: the entries are
    stored from left to right, a later one overwriting an earlier one. *)
Definition display (base : dict) (entries : list (string * value)) : dict :=
  foldl (λ d kv, <[kv.1 := kv.2]> d) base entries.

(** [v == s] for a [str] constant [s]: only a [str] is equal to a [str]. *)
Definition eq_str (v : value) (s : string) : bool :=
  match v with
  | VStr t => String.eqb t s
  | _ => false
  end.

(** [v in l] for a list [l] of [str] constants. *)
Definition in_ (v : value) (l : list string) : bool := existsb (eq_str v) l.

(** [str.isspace] on one code point below 256. *)
Definition isspace (c : ascii) : bool :=
  let n := nat_of_ascii c in
  ((9 <=? n)%nat && (n <=? 13)%nat) || ((28 <=? n)%nat && (n <=? 32)%nat)
  || (n =? 133)%nat || (n =? 160)%nat.

Fixpoint lstrip (s : string) : string :=
  match s with
  | EmptyString => EmptyString
  | String c s' => if isspace c then lstrip s' else s
  end.

Fixpoint rstrip (s : string) : string :=
  match s with
  | EmptyString => EmptyString
  | String c s' =>
      match rstrip s' with
      | EmptyString => if isspace c then EmptyString else String c EmptyString
      | r => String c r
      end
  end.

(** [s.strip()] *)
Definition strip (s : string) : string := rstrip (lstrip s).

(** [v.strip()]: only a [str] has the method. *)
Definition strip_method (v : value) : outcome string :=
  match v with
  | VStr s => Return (strip s)
  | _ => Raise (AttributeError (type_name v) "strip")
  end.

(** The patterns of the module are sequences of one-character items. *)
Inductive item :=
| Range (lo hi : ascii)
| Lit (c : ascii).

Definition item_match (i : item) (c : ascii) : bool :=
  match i with
  | Range lo hi =>
      (nat_of_ascii lo <=? nat_of_ascii c)%nat
      && (nat_of_ascii c <=? nat_of_ascii hi)%nat
  | Lit l => Ascii.eqb l c
  end.

(** Whether the pattern matches at the start of the string. *)
Fixpoint matches_prefix (p : list item) (s : string) : bool :=
  match p with
  | [] => true
  | i :: p' =>
      match s with
      | EmptyString => false
      | String c s' => item_match i c && matches_prefix p' s'
      end
  end.

(** [bool(pattern.match(v))]: [re] refuses what is not a string. *)
Definition re_match (p : list item) (v : value) : outcome bool :=
  match v with
  | VStr s => Return (matches_prefix p s)
  | _ => Raise (TypeError "expected string or bytes-like object")
  end.

End Py.

(** ** The module *)

Definition SOURCE_TYPES : list string :=
  [ "UNDEFINED";
    "REGULATORY_ENFORCEMENT";
    "LAW_ENFORCEMENT";
    "JUDICIARY_COURT_RECORDS";
    "NONGOV_ORG" ].

Definition DOCUMENT_TYPES : list string :=
  [ "UNKNOWN";
    "NEWS";
    "PRESS_RELEASE";
    "COMMENT";
    "ALERT";
    "LITIGATION";
    "OTHER" ].

Definition IMPORTANCE : list string := [ "LOW"; "MEDIUM"; "HIGH" ].

(** [l[0]] of a taxonomy table. *)
Definition first_entry (l : list string) : string := default "" (l !! 0%nat).

Definition validate_institution_name (result : dict) : outcome value :=
  let iname := Py.or_ (Py.get result "institution_name" VNone)
                      (Py.get result "name" VNone) in
  if Py.is_none iname || Py.not_ iname
  then Raise (ValueError "Institution name missing")
  else s ← Py.strip_method iname; Return (VStr s).

Definition validate_short_institution_name (result : dict) : outcome value :=
  let sn := Py.or_ (Py.get result "short_institution_name" VNone)
              (Py.or_ (Py.get result "short_name" VNone)
                      (Py.get result "short" VNone)) in
  if Py.is_none sn || Py.not_ sn
  then Raise (ValueError "Short institution name missing")
  else s ← Py.strip_method sn; Return (VStr s).

Definition validate_source_type (result : dict) : outcome value :=
  let st := Py.get result "source_type" VNone in
  if Py.is_none st || negb (Py.in_ st SOURCE_TYPES)
  then Return (VStr (first_entry SOURCE_TYPES))
  else Return st.

Definition validate_document_type (result : dict) : outcome value :=
  let dt := Py.get result "document_type" VNone in
  if Py.is_none dt || negb (Py.in_ dt DOCUMENT_TYPES)
  then Return (VStr (first_entry DOCUMENT_TYPES))
  else Return dt.

Definition validate_importance (result : dict) : outcome value :=
  let imp := Py.get result "importance" (VStr "LOW") in
  Return (if negb (Py.in_ imp IMPORTANCE) then VStr "LOW" else imp).

Definition validate_title (result : dict) : outcome value :=
  s ← Py.strip_method (Py.get result "title" (VStr "")); Return (VStr s).

Definition validate_body (result : dict) : outcome value :=
  let b := Py.get result "body" VNone in
  if Py.is_none b then Raise (ValueError "Missing body in response")
  else
    b ← Py.strip_method b;
    if Py.not_ (VStr b) then Raise (ValueError "Empty body")
    else Return (VStr b).

Definition simple_re : list Py.item :=
  [ Py.Range "a"%char "z"%char; Py.Range "a"%char "z"%char ].

Definition locale_re : list Py.item :=
  [ Py.Range "a"%char "z"%char; Py.Range "a"%char "z"%char; Py.Lit "-"%char;
    Py.Range "A"%char "Z"%char; Py.Range "A"%char "Z"%char ].

Definition iso3166_re : list Py.item :=
  [ Py.Range "A"%char "Z"%char; Py.Range "A"%char "Z"%char ].

Definition validate_lang (result : dict) : outcome value :=
  let lang := Py.or_ (Py.get result "expected_language_code" VNone)
                (Py.or_ (Py.get result "lang_code" VNone)
                   (Py.or_ (Py.get result "lang" VNone)
                           (Py.get result "language" VNone))) in
  if Py.is_none lang then Raise (ValueError "Language code not provided")
  else
    m ← Py.re_match simple_re lang;
    if m : bool then Return lang
    else
      m' ← Py.re_match locale_re lang;
      if m' : bool then Return lang
      else Raise (ValueError "Wrong language code value").

Definition validate_jurisdiction (result : dict) : outcome value :=
  let jur := Py.or_ (Py.get result "jurisdiction" VNone)
                    (Py.get result "country" VNone) in
  if Py.is_none jur then Raise (ValueError "Jurisdiction is not defined")
  else
    jur ← Py.strip_method jur;
    if Py.not_ (VStr jur) then Raise (ValueError "Jurisdiction is empty")
    else
      m ← Py.re_match iso3166_re (VStr jur);
      if negb m then Raise (ValueError "Wrong ISO 3166 code")
      else Return (VStr jur).

Definition validate_jurisdiction_state (result : dict) : outcome value :=
  let jurs := Py.or_ (Py.get result "jurisdiction_state" VNone)
                     (Py.get result "state" VNone) in
  if Py.is_none jurs then Return VNone
  else
    s ← Py.strip_method jurs;
    if Py.not_ (VStr s) then Return VNone
    else s' ← Py.strip_method jurs; Return (VStr s').

Definition validate_jurisdiction_municipality (result : dict) : outcome value :=
  let jurm := Py.or_ (Py.get result "jurisdiction_municipality" VNone)
                (Py.or_ (Py.get result "municipality" VNone)
                        (Py.get result "town" VNone)) in
  if Py.is_none jurm then Return VNone
  else
    s ← Py.strip_method jurm;
    if Py.not_ (VStr s) then Return VNone
    else s' ← Py.strip_method jurm; Return (VStr s').

Definition convert (task result : dict) (timestamp : float) : outcome dict :=
  taskid ← Py.getitem task "taskid";
  url ← Py.getitem task "url";
  Return (Py.display result
            [ ("id", taskid);
              ("url", url);
              ("version", VFloat timestamp);
              ("crawled", VFloat timestamp) ]).

Section WithParser.

(** [parse(txt, fuzzy=True).timestamp()]: the timestamp of the date it
    finds, or the exception it raises. *)
Variable parse_timestamp : string → outcome float.

Definition parsedate (txt : string) : outcome (option float) :=
  match parse_timestamp txt with
  | Return t => Return (Some t)
  | Raise ParserError => Return None
  | Raise e => Raise e
  end.

(** [guess] is none or a float, so the last [else] of the string branch
    of the source has no case here. *)
Definition validate_published (now : float) (result : dict) : outcome value :=
  let pub := Py.get result "published" VNone in
  match pub with
  | VNone => Return (VFloat now)
  | VStr s =>
      guess ← parsedate s;
      match guess with
      | None => Return (VFloat now)
      | Some g => Return (VFloat g)
      end
  | VFloat x =>
      if PrimFloat.ltb 0%float x then Return pub
      else Raise (ValueError "Published time should be a timestamp (float)")
  | _ => Raise (ValueError "Published time should be a timestamp (float)")
  end.

Definition validate_response (now : float) (res : dict) : outcome dict :=
  published ← validate_published now res;
  title ← validate_title res;
  body ← validate_body res;
  name ← validate_institution_name res;
  short_name ← validate_short_institution_name res;
  source_type ← validate_source_type res;
  document_type ← validate_document_type res;
  lang_code ← validate_lang res;
  jurisdiction ← validate_jurisdiction res;
  jurisdiction_state ← validate_jurisdiction_state res;
  jurisdiction_municipality ← validate_jurisdiction_municipality res;
  importance ← validate_importance res;
  Return (Py.display ∅
            [ ("published", published);
              ("title", title);
              ("body", body);
              ("name", name);
              ("short_name", short_name);
              ("source_type", source_type);
              ("document_type", document_type);
              ("lang_code", lang_code);
              ("jurisdiction", jurisdiction);
              ("jurisdiction_state", jurisdiction_state);
              ("jurisdiction_municipality", jurisdiction_municipality);
              ("importance", importance) ]).

End WithParser.

(** ** The vocabulary of the specification *)

(** The four kinds of validation failure.  The module signals each of
    them with a [ValueError]; the message tells the kind. *)
Inductive error_kind := MissingField | EmptyField | InvalidFormat | InvalidType.

Definition error_kinds : list (string * error_kind) :=
  [ ("Institution name missing", MissingField);
    ("Short institution name missing", MissingField);
    ("Missing body in response", MissingField);
    ("Language code not provided", MissingField);
    ("Jurisdiction is not defined", MissingField);
    ("Empty body", EmptyField);
    ("Jurisdiction is empty", EmptyField);
    ("Wrong language code value", InvalidFormat);
    ("Wrong ISO 3166 code", InvalidFormat);
    ("Published time should be a timestamp (float)", InvalidType) ].

Definition kind_of (e : exn) : option error_kind :=
  match e with
  | ValueError msg => snd <$> find (λ mk, String.eqb msg mk.1) error_kinds
  | _ => None
  end.

Definition fails_with {A} (o : outcome A) (k : error_kind) : Prop :=
  match o with
  | Raise e => kind_of e = Some k
  | Return _ => False
  end.

(** The chain [record.get(k1, None) or ... or record.get(kn, None)] that
    the validators write out for their aliases. *)
Fixpoint alias_chain (record : dict) (keys : list string) : value :=
  match keys with
  | [] => VNone
  | [k] => Py.get record k VNone
  | k :: ks => Py.or_ (Py.get record k VNone) (alias_chain record ks)
  end.

(** The aliases of the language code and of the jurisdiction, in the
    order in which their validators look them up. *)
Definition lang_keys : list string :=
  [ "expected_language_code"; "lang_code"; "lang"; "language" ].

Definition jurisdiction_keys : list string := [ "jurisdiction"; "country" ].

(** A key that is absent or holds a falsy value. *)
Definition unset (record : dict) (k : string) : Prop :=
  Py.truthy (Py.get record k VNone) = false.

(** A string of white space only (the empty string is one). *)
Fixpoint whitespace_only (s : string) : bool :=
  match s with
  | EmptyString => true
  | String c s' => Py.isspace c && whitespace_only s'
  end.

(** The validators in the order in which the specification lists them. *)
Definition validation_order (parse : string → outcome float) (now : float)
  : list (string * (dict → outcome value)) :=
  [ ("published", validate_published parse now);
    ("title", validate_title);
    ("body", validate_body);
    ("name", validate_institution_name);
    ("short_name", validate_short_institution_name);
    ("source_type", validate_source_type);
    ("document_type", validate_document_type);
    ("lang_code", validate_lang);
    ("jurisdiction", validate_jurisdiction);
    ("jurisdiction_state", validate_jurisdiction_state);
    ("jurisdiction_municipality", validate_jurisdiction_municipality);
    ("importance", validate_importance) ].

(** Running a list of validators from left to right, stopping at the
    first one that raises. *)
Fixpoint run_in_order (vs : list (string * (dict → outcome value))) (record : dict)
  : outcome (list (string * value)) :=
  match vs with
  | [] => Return []
  | (k, v) :: vs' =>
      x ← v record;
      l ← run_in_order vs' record;
      Return ((k, x) :: l)
  end.

(** A validator that falls back on [dflt] unless the record holds a
    member of the taxonomy under [key], and never raises. *)
Definition falls_back (validate : dict → outcome value)
    (key : string) (taxonomy : list string) (dflt : string) : Prop :=
  ∀ record : dict,
    (∀ s, record !! key = Some (VStr s) → s ∈ taxonomy →
          validate record = Return (VStr s))
    ∧ (record !! key = None → validate record = Return (VStr dflt))
    ∧ (∀ v, record !! key = Some v → (∀ s, s ∈ taxonomy → v ≠ VStr s) →
            validate record = Return (VStr dflt)).

(** A parser described by the finite table of what it does on the
    strings it knows; it reports a [ParserError] on every other one. *)
Definition table_parser (table : list (string * outcome float)) (txt : string)
  : outcome float :=
  match find (λ row, String.eqb txt row.1) table with
  | Some row => row.2
  | None => Raise ParserError
  end.

(** The inputs of the examples: a parser that knows one date and
    overflows on a year that is too large, and the record of the
    specification that passes every validator. *)
Definition example_parser : string → outcome float :=
  table_parser
    [ ("2023-01-05", Return 1672876800%float);
      ("99999999999999999999", Raise OverflowError) ].

Definition example_record : dict :=
  Py.display ∅
    [ ("body", VStr "x");
      ("name", VStr "A");
      ("short_name", VStr "a");
      ("lang", VStr "en");
      ("jurisdiction", VStr "US") ].

(** The aliases of the names and of the two optional parts of the
    jurisdiction, in the order in which their validators look them up. *)
Definition name_keys : list string := [ "institution_name"; "name" ].

Definition short_name_keys : list string :=
  [ "short_institution_name"; "short_name"; "short" ].

Definition state_keys : list string := [ "jurisdiction_state"; "state" ].

Definition municipality_keys : list string :=
  [ "jurisdiction_municipality"; "municipality"; "town" ].

(** The keys of the document that [validate_response] builds, the keys
    that [convert] sets, and the keys that the validators look up. *)
Definition document_keys : list string :=
  [ "published"; "title"; "body"; "name"; "short_name"; "source_type";
    "document_type"; "lang_code"; "jurisdiction"; "jurisdiction_state";
    "jurisdiction_municipality"; "importance" ].

Definition converter_keys : list string := [ "id"; "url"; "version"; "crawled" ].

Definition read_keys : list string :=
  [ "published"; "title"; "body"; "institution_name"; "name";
    "short_institution_name"; "short_name"; "short"; "source_type";
    "document_type"; "expected_language_code"; "lang_code"; "lang";
    "language"; "jurisdiction"; "country"; "jurisdiction_state"; "state";
    "jurisdiction_municipality"; "municipality"; "town"; "importance" ].

(** A string that [strip] leaves as it is. *)
Definition trimmed (s : string) : Prop := Py.strip s = s.

(** A value that is none or a trimmed string that is not empty. *)
Definition none_or_trimmed (v : value) : Prop :=
  v = VNone ∨ ∃ s, v = VStr s ∧ s ≠ "" ∧ trimmed s.

(** The exception of a string method or of [re] on a value that is not
    a string. *)
Definition untyped (e : exn) : Prop :=
  (∃ ty, e = AttributeError ty "strip")
  ∨ e = TypeError "expected string or bytes-like object".

(** What the two name validators do with the value of their chain, and
    what the validators of the state and of the municipality do with
    theirs. *)
Definition required_name (msg : string) (v : value) : outcome value :=
  if Py.is_none v || Py.not_ v then Raise (ValueError msg)
  else s ← Py.strip_method v; Return (VStr s).

Definition optional_part (v : value) : outcome value :=
  if Py.is_none v then Return VNone
  else
    s ← Py.strip_method v;
    if Py.not_ (VStr s) then Return VNone
    else s' ← Py.strip_method v; Return (VStr s').

(** The two causes of an exception of validation that is not one of the
    four kinds: the parser raised it on the published string, or a key
    other than published holds a value that is not a string. *)
Definition raised_by_parser (parse : string → outcome float) (record : dict)
    (e : exn) : Prop :=
  ∃ s, record !! "published" = Some (VStr s)
       ∧ parse s = Raise e ∧ e ≠ ParserError.

Definition raised_on_value (record : dict) (e : exn) : Prop :=
  untyped e
  ∧ ∃ k v, k ∈ read_keys ∧ k ≠ "published"
           ∧ record !! k = Some v ∧ ∀ s, v ≠ VStr s.

(** The records that validation accepts: what each validator that can
    fail needs in order to return. *)
Definition published_ok (parse : string → outcome float) (record : dict)
  : Prop :=
  match record !! "published" with
  | None | Some VNone => True
  | Some (VFloat x) => PrimFloat.ltb 0%float x = true
  | Some (VStr s) => ∀ e, parse s = Raise e → e = ParserError
  | Some _ => False
  end.

Definition none_or_str (v : value) : Prop :=
  match v with VNone | VStr _ => True | _ => False end.

Definition acceptable (parse : string → outcome float) (record : dict)
  : Prop :=
  published_ok parse record
  ∧ (record !! "title" = None ∨ ∃ s, record !! "title" = Some (VStr s))
  ∧ (∃ s, record !! "body" = Some (VStr s) ∧ whitespace_only s = false)
  ∧ (∃ s, alias_chain record name_keys = VStr s ∧ s ≠ "")
  ∧ (∃ s, alias_chain record short_name_keys = VStr s ∧ s ≠ "")
  ∧ (∃ s, alias_chain record lang_keys = VStr s
          ∧ Py.matches_prefix simple_re s = true)
  ∧ (∃ s, alias_chain record jurisdiction_keys = VStr s
          ∧ Py.matches_prefix iso3166_re (Py.strip s) = true)
  ∧ none_or_str (alias_chain record state_keys)
  ∧ none_or_str (alias_chain record municipality_keys).

(** The document that [validate_response] builds from the values of the
    twelve validators. *)
Definition document (p t b n sn st dt lc j js jm im : value) : dict :=
  Py.display ∅
    [ ("published", p); ("title", t); ("body", b); ("name", n);
      ("short_name", sn); ("source_type", st); ("document_type", dt);
      ("lang_code", lc); ("jurisdiction", j); ("jurisdiction_state", js);
      ("jurisdiction_municipality", jm); ("importance", im) ].

(** ** Strings *)

Lemma lstrip_whitespace_only s :
  whitespace_only (Py.lstrip s) = whitespace_only s.
Proof.
  induction s as [|c s IH]; simpl; [done|].
  destruct (Py.isspace c) eqn:Hc; simpl; [done|]. by rewrite Hc.
Qed.

Lemma rstrip_empty s : Py.rstrip s = "" ↔ whitespace_only s = true.
Proof.
  induction s as [|c s IH]; simpl; [done|].
  destruct (Py.rstrip s) eqn:Hr.
  - destruct (Py.isspace c); simpl.
    + split; [intros _; by apply IH | done].
    + split; done.
  - split; [done|]. intros [_ Hs]%andb_true_iff. apply IH in Hs. done.
Qed.

Lemma strip_empty s : Py.strip s = "" ↔ whitespace_only s = true.
Proof. unfold Py.strip. by rewrite rstrip_empty, lstrip_whitespace_only. Qed.

Lemma not_empty_str s : Py.not_ (VStr s) = true ↔ s = "".
Proof.
  unfold Py.not_; simpl. rewrite negb_involutive. apply String.eqb_eq.
Qed.

(** ** Membership in a taxonomy *)

Lemma in_str s (l : list string) : Py.in_ (VStr s) l = true ↔ s ∈ l.
Proof.
  unfold Py.in_. rewrite existsb_exists. split.
  - intros (t & Ht & Heq); simpl in Heq. apply String.eqb_eq in Heq as ->.
    by apply list_elem_of_In.
  - intros Hs. exists s. split; [by apply list_elem_of_In|]. apply String.eqb_refl.
Qed.

Lemma in_other v (l : list string) :
  (∀ s, s ∈ l → v ≠ VStr s) → Py.in_ v l = false.
Proof.
  intros Hv. destruct v as [|b|n|x|t];
    try (clear Hv; unfold Py.in_; by induction l).
  destruct (Py.in_ (VStr t) l) eqn:Hin; [|done].
  apply in_str in Hin. by destruct (Hv t Hin).
Qed.

Lemma source_type_falls_back :
  falls_back validate_source_type "source_type" SOURCE_TYPES "UNDEFINED".
Proof.
  intros record. unfold validate_source_type, Py.get. repeat split.
  - intros s -> Hs%in_str; cbn -[Py.in_]. by rewrite Hs.
  - by intros ->.
  - intros v -> Hv%in_other; cbn -[Py.in_]. rewrite Hv. by rewrite orb_true_r.
Qed.

Lemma document_type_falls_back :
  falls_back validate_document_type "document_type" DOCUMENT_TYPES "UNKNOWN".
Proof.
  intros record. unfold validate_document_type, Py.get. repeat split.
  - intros s -> Hs%in_str; cbn -[Py.in_]. by rewrite Hs.
  - by intros ->.
  - intros v -> Hv%in_other; cbn -[Py.in_]. rewrite Hv. by rewrite orb_true_r.
Qed.

Lemma importance_falls_back :
  falls_back validate_importance "importance" IMPORTANCE "LOW".
Proof.
  intros record. unfold validate_importance, Py.get. repeat split.
  - intros s -> Hs%in_str; cbn -[Py.in_]. by rewrite Hs.
  - by intros ->.
  - intros v -> Hv%in_other; cbn -[Py.in_]. by rewrite Hv.
Qed.

(** C8: the source_type, document_type and importance validators never
    raise.  Each returns a member of its taxonomy unchanged, and returns
    the default when the key is absent or holds anything else; the default
    is the first entry of the taxonomy, "UNDEFINED", "UNKNOWN" and "LOW"
    respectively, and a value that is not a member gets the same answer as
    an absent key. *)
Theorem taxonomy_validators_fall_back :
  falls_back validate_source_type "source_type" SOURCE_TYPES "UNDEFINED"
  ∧ falls_back validate_document_type "document_type" DOCUMENT_TYPES "UNKNOWN"
  ∧ falls_back validate_importance "importance" IMPORTANCE "LOW"
  ∧ first_entry SOURCE_TYPES = "UNDEFINED"
  ∧ first_entry DOCUMENT_TYPES = "UNKNOWN"
  ∧ first_entry IMPORTANCE = "LOW"
  ∧ ∀ record : dict,
      (∃ v, validate_source_type record = Return v)
      ∧ (∃ v, validate_document_type record = Return v)
      ∧ (∃ v, validate_importance record = Return v).
Proof.
  split; [apply source_type_falls_back|].
  split; [apply document_type_falls_back|].
  split; [apply importance_falls_back|].
  repeat (split; [reflexivity|]).
  intros record. repeat split.
  - unfold validate_source_type. case (_ || _); eauto.
  - unfold validate_document_type. case (_ || _); eauto.
  - unfold validate_importance. eauto.
Qed.

Lemma taxonomy_validators_fall_back_witness :
  validate_source_type (<["source_type" := VStr "NOT_A_TYPE"]> example_record)
  = Return (VStr "UNDEFINED")
  ∧ validate_source_type example_record = Return (VStr "UNDEFINED")
  ∧ validate_document_type (<["document_type" := VStr "NEWS"]> example_record)
    = Return (VStr "NEWS")
  ∧ validate_importance (<["importance" := VInt 3]> example_record)
    = Return (VStr "LOW").
Proof.
  destruct taxonomy_validators_fall_back as (Hs & Hd & Hi & _).
  split; [|split; [|split]].
  - destruct (Hs (<["source_type" := VStr "NOT_A_TYPE"]> example_record))
      as (_ & _ & H).
    apply (H (VStr "NOT_A_TYPE")); [done|].
    intros s Hs' [= <-]. by apply in_str in Hs'.
  - destruct (Hs example_record) as (_ & H & _). by apply H.
  - destruct (Hd (<["document_type" := VStr "NEWS"]> example_record))
      as (H & _).
    apply (H "NEWS"); [done | by apply in_str].
  - destruct (Hi (<["importance" := VInt 3]> example_record)) as (_ & _ & H).
    by apply (H (VInt 3)).
Defined.

(** ** What a returned document holds *)

Lemma validate_response_return parse now (record doc : dict) :
  validate_response parse now record = Return doc →
  ∃ p b,
    validate_published parse now record = Return p
    ∧ validate_body record = Return b
    ∧ doc !! "published" = Some p
    ∧ doc !! "body" = Some b.
Proof.
  unfold validate_response.
  destruct (validate_published parse now record) as [p|]; [|done].
  destruct (validate_title record); [|done].
  destruct (validate_body record) as [b|]; [|done].
  destruct (validate_institution_name record); [|done].
  destruct (validate_short_institution_name record); [|done].
  destruct (validate_source_type record); [|done].
  destruct (validate_document_type record); [|done].
  destruct (validate_lang record); [|done].
  destruct (validate_jurisdiction record); [|done].
  destruct (validate_jurisdiction_state record); [|done].
  destruct (validate_jurisdiction_municipality record); [|done].
  destruct (validate_importance record); [|done].
  intros [= <-]. exists p, b. do 2 (split; [done|]).
  cbn [Py.display foldl fst snd mbind outcome_bind]. by simplify_map_eq.
Qed.

Lemma validate_response_published_error parse now (record : dict) e :
  validate_published parse now record = Raise e →
  validate_response parse now record = Raise e.
Proof. unfold validate_response. by intros ->. Qed.

(** ** Dates *)

(** What [parsedate] does with each outcome of the call of the parser:
    it handles [ParserError] and nothing else. *)
Lemma parsedate_outcomes (parse : string → outcome float) (txt : string) :
  (∀ t, parse txt = Return t → parsedate parse txt = Return (Some t))
  ∧ (parse txt = Raise ParserError → parsedate parse txt = Return None)
  ∧ (∀ e, parse txt = Raise e → e ≠ ParserError → parsedate parse txt = Raise e).
Proof.
  unfold parsedate. repeat split.
  - by intros t ->.
  - by intros ->.
  - intros e -> He. by destruct e.
Qed.

(** C3 (a defect of the code): [parsedate] is written to return none
    when no timestamp can be had, but its handler names [ParserError]
    alone.  On a string whose year is too large for a date the parser
    raises an [OverflowError], and on the date 0001-01-01, which the
    parser finds, the call of [timestamp] raises a [ValueError];
    [parsedate] raises both instead of returning none, and so does the
    published validator on a record that holds such a string. *)
Theorem parsedate_raises :
  parsedate
    (table_parser
       [ ("99999999999999999999", Raise OverflowError);
         ("0001-01-01", Raise (ValueError "year 0 is out of range")) ])
    "99999999999999999999"
  = Raise OverflowError
  ∧ parsedate
      (table_parser
         [ ("99999999999999999999", Raise OverflowError);
           ("0001-01-01", Raise (ValueError "year 0 is out of range")) ])
      "0001-01-01"
    = Raise (ValueError "year 0 is out of range")
  ∧ validate_published
      (table_parser
         [ ("99999999999999999999", Raise OverflowError);
           ("0001-01-01", Raise (ValueError "year 0 is out of range")) ])
      100%float (<["published" := VStr "0001-01-01"]> example_record)
    = Raise (ValueError "year 0 is out of range")
  ∧ kind_of (ValueError "year 0 is out of range") = None.
Proof.
  split; [|split; [|split]].
  - by apply parsedate_outcomes.
  - by apply parsedate_outcomes.
  - reflexivity.
  - reflexivity.
Qed.

(** C1 (as the code has it): the published validator returns the current
    time when the key is absent or holds none; for a string it returns
    the parsed timestamp, or the current time when the parser reports a
    [ParserError]; it returns a float that is strictly positive as it is;
    and it fails with InvalidType on a float that is not strictly positive
    and on every integer and boolean, whatever its sign.  The validator
    runs first: its error is the error of the whole validation, and what
    it returns is the published field of the document. *)
Theorem published_policy (parse : string → outcome float) (now : float)
    (record : dict) :
  (record !! "published" = None ∨ record !! "published" = Some VNone →
     validate_published parse now record = Return (VFloat now))
  ∧ (∀ s, record !! "published" = Some (VStr s) →
       (∀ t, parse s = Return t →
             validate_published parse now record = Return (VFloat t))
       ∧ (parse s = Raise ParserError →
             validate_published parse now record = Return (VFloat now)))
  ∧ (∀ x, record !! "published" = Some (VFloat x) →
       PrimFloat.ltb 0%float x = true →
       validate_published parse now record = Return (VFloat x))
  ∧ (∀ x, record !! "published" = Some (VFloat x) →
       PrimFloat.ltb 0%float x = false →
       fails_with (validate_published parse now record) InvalidType)
  ∧ (∀ v, record !! "published" = Some v →
       (∃ b, v = VBool b) ∨ (∃ n, v = VInt n) →
       fails_with (validate_published parse now record) InvalidType)
  ∧ (∀ e, validate_published parse now record = Raise e →
       validate_response parse now record = Raise e)
  ∧ (∀ doc : dict, validate_response parse now record = Return doc →
       ∃ p, validate_published parse now record = Return p
            ∧ doc !! "published" = Some p).
Proof.
  split; [|split; [|split; [|split; [|split; [|split]]]]].
  - unfold validate_published, Py.get. by intros [-> | ->].
  - intros s Hs. unfold validate_published, Py.get, parsedate.
    rewrite Hs; simpl. split; [by intros t -> | by intros ->].
  - unfold validate_published, Py.get. intros x -> Hx; simpl. by rewrite Hx.
  - unfold validate_published, Py.get. intros x -> Hx; simpl. by rewrite Hx.
  - unfold validate_published, Py.get. by intros v -> [[b ->] | [n ->]].
  - apply validate_response_published_error.
  - intros doc (p & b & Hp & _ & Hdoc & _)%validate_response_return.
    by exists p.
Qed.

Lemma published_policy_witness :
  validate_published example_parser 100%float
    (<["published" := VFloat 5%float]> example_record) = Return (VFloat 5%float)
  ∧ fails_with
      (validate_published example_parser 100%float
         (<["published" := VFloat (-5)%float]> example_record))
      InvalidType
  ∧ validate_published example_parser 100%float
      (<["published" := VStr "2023-01-05"]> example_record)
    = Return (VFloat 1672876800%float)
  ∧ validate_published example_parser 100%float example_record
    = Return (VFloat 100%float)
  ∧ fails_with
      (validate_response example_parser 100%float
         (<["published" := VFloat (-5)%float]> example_record))
      InvalidType
  ∧ ∃ doc : dict,
      validate_response example_parser 100%float
        (<["published" := VFloat 5%float]> example_record) = Return doc
      ∧ doc !! "published" = Some (VFloat 5%float).
Proof.
  split; [|split; [|split; [|split; [|split]]]].
  - by apply (published_policy example_parser 100%float
                (<["published" := VFloat 5%float]> example_record)).
  - destruct (published_policy example_parser 100%float
                (<["published" := VFloat (-5)%float]> example_record))
      as (_ & _ & _ & H & _).
    by apply (H (-5)%float).
  - destruct (published_policy example_parser 100%float
                (<["published" := VStr "2023-01-05"]> example_record))
      as (_ & H & _).
    by apply (H "2023-01-05").
  - destruct (published_policy example_parser 100%float example_record)
      as (H & _).
    apply H. by left.
  - destruct (published_policy example_parser 100%float
                (<["published" := VFloat (-5)%float]> example_record))
      as (_ & _ & _ & _ & _ & H & _).
    by rewrite (H (ValueError "Published time should be a timestamp (float)")).
  - destruct (published_policy example_parser 100%float
                (<["published" := VFloat 5%float]> example_record))
      as (_ & _ & _ & _ & _ & _ & H).
    eexists. split; [reflexivity|].
    destruct (H _ eq_refl) as (p & [= <-] & Hdoc). exact Hdoc.
Defined.

(** C1, refuted as stated: a record whose published value is the
    integer 5, a number that is strictly positive, fails with InvalidType
    instead of having 5 returned; and a record that holds none under the
    key, a value of another type, gets the current time instead of a
    failure. *)
Lemma published_integer_rejected :
  ((<["published" := VInt 5]> example_record : dict) !! "published"
   = Some (VInt 5))
  ∧ fails_with
      (validate_published example_parser 100%float
         (<["published" := VInt 5]> example_record))
      InvalidType
  ∧ validate_published example_parser 100%float
      (<["published" := VNone]> example_record)
    = Return (VFloat 100%float).
Proof. repeat split; vm_compute; reflexivity. Qed.

(** ** The order of validation *)

Lemma validate_response_in_order parse now (record : dict) :
  validate_response parse now record
  = l ← run_in_order (validation_order parse now) record;
    Return (Py.display ∅ l).
Proof.
  unfold validate_response, validation_order, run_in_order.
  destruct (validate_published parse now record); [|done].
  destruct (validate_title record); [|done].
  destruct (validate_body record); [|done].
  destruct (validate_institution_name record); [|done].
  destruct (validate_short_institution_name record); [|done].
  destruct (validate_source_type record); [|done].
  destruct (validate_document_type record); [|done].
  destruct (validate_lang record); [|done].
  destruct (validate_jurisdiction record); [|done].
  destruct (validate_jurisdiction_state record); [|done].
  destruct (validate_jurisdiction_municipality record); [|done].
  destruct (validate_importance record); done.
Qed.

Lemma run_in_order_first_failure pre k v post (record : dict) e :
  Forall (λ kv, ∃ x, kv.2 record = Return x) pre →
  v record = Raise e →
  run_in_order (pre ++ (k, v) :: post)%list record = Raise e.
Proof.
  intros Hpre Hv. induction Hpre as [|[k' v'] pre [x Hx] _ IH]; simpl.
  - by rewrite Hv.
  - simpl in Hx. by rewrite Hx, IH.
Qed.

(** C2: the validators run in the order published, title, body, name,
    short_name, source_type, document_type, lang_code, jurisdiction,
    jurisdiction_state, jurisdiction_municipality, importance; when the
    ones before some validator succeed and that one raises, the whole
    validation raises that very error: there is no document, and no
    error of a later field is reported or added. *)
Theorem first_error_wins (parse : string → outcome float) (now : float)
    (record : dict) (pre post : list (string * (dict → outcome value)))
    (k : string) (v : dict → outcome value) (e : exn) :
  validation_order parse now = (pre ++ (k, v) :: post)%list →
  Forall (λ kv, ∃ x, kv.2 record = Return x) pre →
  v record = Raise e →
  validate_response parse now record = Raise e
  ∧ (validation_order parse now).*1
    = [ "published"; "title"; "body"; "name"; "short_name"; "source_type";
        "document_type"; "lang_code"; "jurisdiction"; "jurisdiction_state";
        "jurisdiction_municipality"; "importance" ].
Proof.
  intros Hsplit Hpre Hv. split; [|reflexivity].
  rewrite validate_response_in_order, Hsplit.
  by rewrite (run_in_order_first_failure pre k v post record e).
Qed.

Lemma first_error_wins_witness :
  fails_with (validate_lang (<["lang" := VStr "EN"]> (delete "body" example_record)))
    InvalidFormat
  ∧ validate_response example_parser 100%float
      (<["lang" := VStr "EN"]> (delete "body" example_record))
    = Raise (ValueError "Missing body in response").
Proof.
  split; [by vm_compute|].
  eapply (first_error_wins example_parser 100%float _
            [("published", _); ("title", _)] _ "body" validate_body).
  - reflexivity.
  - repeat constructor; eexists; vm_compute; reflexivity.
  - vm_compute; reflexivity.
Defined.

(** ** Aliases *)

Lemma alias_chain_cons (record : dict) k k' ks :
  alias_chain record (k :: k' :: ks)
  = Py.or_ (Py.get record k VNone) (alias_chain record (k' :: ks)).
Proof. reflexivity. Qed.

Lemma alias_chain_skip (record : dict) k ks :
  unset record k → ks ≠ [] →
  alias_chain record (k :: ks) = alias_chain record ks.
Proof.
  intros Hk Hks. destruct ks as [|k' ks]; [done|].
  rewrite alias_chain_cons. unfold Py.or_. by rewrite Hk.
Qed.

Lemma alias_chain_first_truthy (record : dict) (earlier later : list string)
    (k : string) (v : value) :
  Forall (unset record) earlier →
  record !! k = Some v → Py.truthy v = true →
  alias_chain record (earlier ++ k :: later)%list = v.
Proof.
  intros Hearlier Hk Hv.
  assert (Py.get record k VNone = v) as Hget by (unfold Py.get; by rewrite Hk).
  induction Hearlier as [|k' earlier Hk' _ IH]; simpl app.
  - destruct later as [|k2 later]; [done|].
    rewrite alias_chain_cons. unfold Py.or_. by rewrite Hget, Hv.
  - rewrite alias_chain_skip; [done..|]. by destruct earlier.
Qed.

(** C4: in a chain of alias keys the value of the first key that holds a
    truthy value is the one resolved; a later alias is looked at only
    when every earlier key is absent or holds a falsy value.  So the name
    validator returns the (trimmed) string under "institution_name"
    whenever that one is populated, whatever "name" holds, and the short
    name validator follows the order short_institution_name, short_name,
    short. *)
Theorem first_listed_alias_wins (record : dict) (earlier later : list string)
    (k : string) (v : value) :
  Forall (unset record) earlier →
  record !! k = Some v →
  Py.truthy v = true →
  alias_chain record (earlier ++ k :: later)%list = v
  ∧ (∀ s, v = VStr s →
       (earlier ++ k :: later)%list = ["institution_name"; "name"] →
       validate_institution_name record = Return (VStr (Py.strip s)))
  ∧ (∀ s, v = VStr s →
       (earlier ++ k :: later)%list
       = ["short_institution_name"; "short_name"; "short"] →
       validate_short_institution_name record = Return (VStr (Py.strip s))).
Proof.
  intros Hearlier Hk Hv.
  pose proof (alias_chain_first_truthy record earlier later k v Hearlier Hk Hv)
    as Hchain.
  split; [done|]. split.
  - intros s -> Hkeys. rewrite Hkeys in Hchain. simpl in Hchain.
    unfold validate_institution_name. rewrite Hchain.
    unfold Py.not_. by rewrite Hv.
  - intros s -> Hkeys. rewrite Hkeys in Hchain. simpl in Hchain.
    unfold validate_short_institution_name. rewrite Hchain.
    unfold Py.not_. by rewrite Hv.
Qed.

Lemma first_listed_alias_wins_witness :
  validate_institution_name
    (<["institution_name" := VStr " Acme Corp "]> example_record)
  = Return (VStr "Acme Corp")
  ∧ validate_short_institution_name
      (<["short_institution_name" := VStr ""]> example_record)
    = Return (VStr "a").
Proof.
  split.
  - destruct (first_listed_alias_wins
                (<["institution_name" := VStr " Acme Corp "]> example_record)
                [] ["name"] "institution_name" (VStr " Acme Corp "))
      as (_ & H & _); [by constructor | done | done |].
    exact (H " Acme Corp " eq_refl eq_refl).
  - destruct (first_listed_alias_wins
                (<["short_institution_name" := VStr ""]> example_record)
                ["short_institution_name"] ["short"] "short_name" (VStr "a"))
      as (_ & _ & H); [by repeat constructor | done | done |].
    exact (H "a" eq_refl eq_refl).
Defined.

(** ** The converter *)

(** C5: when the task holds "taskid" and "url", [convert] returns the
    record with "id", "url", "version" and "crawled" set, in this order,
    to the task id, the task url and twice the timestamp: these four
    keys hold the new values whatever the record held under them, every
    other key holds what the record holds.  Nothing is required of the
    record, nothing is validated, and the result is a function of the
    three arguments. *)
Theorem convert_merges (task result : dict) (timestamp : float)
    (taskid url : value) :
  task !! "taskid" = Some taskid →
  task !! "url" = Some url →
  ∃ doc : dict,
    convert task result timestamp = Return doc
    ∧ doc = <["crawled" := VFloat timestamp]>
              (<["version" := VFloat timestamp]>
                 (<["url" := url]> (<["id" := taskid]> result)))
    ∧ doc !! "id" = Some taskid
    ∧ doc !! "url" = Some url
    ∧ doc !! "version" = Some (VFloat timestamp)
    ∧ doc !! "crawled" = Some (VFloat timestamp)
    ∧ (∀ k, k ∉ ["id"; "url"; "version"; "crawled"] → doc !! k = result !! k)
    ∧ (∀ doc', convert task result timestamp = Return doc' → doc' = doc).
Proof.
  intros Hid Hurl. unfold convert, Py.getitem. rewrite Hid, Hurl.
  eexists. split; [reflexivity|]. split; [reflexivity|].
  cbn [Py.display foldl fst snd].
  repeat split; try by simplify_map_eq.
  - intros k Hk. rewrite !lookup_insert_ne; [done|set_solver..].
  - by intros doc' [= <-].
Qed.

Lemma convert_merges_witness :
  ∃ doc : dict,
    convert (Py.display ∅ [("taskid", VStr "t1"); ("url", VStr "http://x")])
      (<["title" := VStr "T"]> ∅) 100%float = Return doc
    ∧ doc = Py.display ∅
              [ ("title", VStr "T"); ("id", VStr "t1"); ("url", VStr "http://x");
                ("version", VFloat 100%float); ("crawled", VFloat 100%float) ].
Proof.
  destruct (convert_merges
              (Py.display ∅ [("taskid", VStr "t1"); ("url", VStr "http://x")])
              (<["title" := VStr "T"]> ∅) 100%float (VStr "t1") (VStr "http://x"))
    as (doc & Hdoc & -> & _); [done..|].
  eexists. split; [exact Hdoc | reflexivity].
Defined.

(** ** Language code *)

Lemma or_none a b : Py.or_ a b = VNone ↔ Py.truthy a = false ∧ b = VNone.
Proof.
  unfold Py.or_. destruct (Py.truthy a) eqn:Ha.
  - split; [intros -> | intros [? _]]; done.
  - split; [done | by intros [_ ->]].
Qed.

Lemma get_none (record : dict) k :
  Py.get record k VNone = VNone
  ↔ record !! k = None ∨ record !! k = Some VNone.
Proof.
  unfold Py.get. destruct (record !! k) as [v|]; simpl.
  - split; [intros ->; by right | by intros [? | [= ->]]].
  - split; [by left | done].
Qed.

Lemma locale_is_simple s :
  Py.matches_prefix locale_re s = true → Py.matches_prefix simple_re s = true.
Proof.
  unfold locale_re, simple_re.
  destruct s as [|a [|b s]]; cbn [Py.matches_prefix]; try done.
  intros [Ha [Hb _]%andb_true_iff]%andb_true_iff. by rewrite Ha, Hb.
Qed.

Lemma validate_lang_none (record : dict) :
  alias_chain record lang_keys = VNone →
  validate_lang record = Raise (ValueError "Language code not provided").
Proof.
  unfold lang_keys, validate_lang. cbn [alias_chain]. by intros ->.
Qed.

Lemma validate_lang_str (record : dict) s :
  alias_chain record lang_keys = VStr s →
  validate_lang record
  = if Py.matches_prefix simple_re s then Return (VStr s)
    else Raise (ValueError "Wrong language code value").
Proof.
  unfold lang_keys, validate_lang. cbn [alias_chain]. intros ->.
  cbn [Py.is_none Py.re_match mbind outcome_bind].
  destruct (Py.matches_prefix simple_re s) eqn:Hs; [done|].
  destruct (Py.matches_prefix locale_re s) eqn:Hl; [|done].
  apply locale_is_simple in Hl. congruence.
Qed.

(** C6 (as the code has it): the lang_code validator fails with
    MissingField when the chain of lookups of expected_language_code,
    lang_code, lang, language yields none, which is when the first three
    are absent or falsy and language is absent or holds none.  A string
    that the chain yields is returned as it is when its first characters
    match two lowercase letters, or two lowercase letters, a hyphen and
    two uppercase letters; every other string, the empty one that
    language may hold among them, fails with InvalidFormat. *)
Theorem lang_policy (record : dict) :
  (alias_chain record lang_keys = VNone
   ↔ Forall (unset record) ["expected_language_code"; "lang_code"; "lang"]
     ∧ (record !! "language" = None ∨ record !! "language" = Some VNone))
  ∧ (alias_chain record lang_keys = VNone →
     fails_with (validate_lang record) MissingField)
  ∧ (∀ s, alias_chain record lang_keys = VStr s →
       Py.matches_prefix simple_re s = true
       ∨ Py.matches_prefix locale_re s = true →
       validate_lang record = Return (VStr s))
  ∧ (∀ s, alias_chain record lang_keys = VStr s →
       Py.matches_prefix simple_re s = false →
       Py.matches_prefix locale_re s = false →
       fails_with (validate_lang record) InvalidFormat).
Proof.
  split; [|split; [|split]].
  - unfold lang_keys. cbn [alias_chain]. rewrite !or_none, get_none.
    rewrite !Forall_cons, Forall_nil. unfold unset. tauto.
  - intros H. by rewrite (validate_lang_none record H).
  - intros s H Hs. rewrite (validate_lang_str record s H).
    destruct Hs as [-> | ->%locale_is_simple]; done.
  - intros s H Hs _. rewrite (validate_lang_str record s H). by rewrite Hs.
Qed.

Lemma lang_policy_witness :
  validate_lang (<["lang" := VStr "en-US"]> example_record)
  = Return (VStr "en-US")
  ∧ fails_with (validate_lang (<["lang" := VStr "EN"]> example_record))
      InvalidFormat
  ∧ fails_with (validate_lang (delete "lang" example_record)) MissingField.
Proof.
  split; [|split].
  - destruct (lang_policy (<["lang" := VStr "en-US"]> example_record))
      as (_ & _ & H & _).
    apply (H "en-US"); [done | by left].
  - destruct (lang_policy (<["lang" := VStr "EN"]> example_record))
      as (_ & _ & _ & H).
    by apply (H "EN").
  - destruct (lang_policy (delete "lang" example_record)) as (_ & H & _).
    by apply H.
Defined.

(** C6, refuted as stated: in a record whose only alias is an empty
    "language", no alias holds a truthy value, and the validator fails
    with InvalidFormat, not with MissingField. *)
Lemma lang_empty_language_is_invalid_format :
  Forall (unset (<["language" := VStr ""]> ∅)) lang_keys
  ∧ validate_lang (<["language" := VStr ""]> ∅)
    = Raise (ValueError "Wrong language code value")
  ∧ fails_with (validate_lang (<["language" := VStr ""]> ∅)) InvalidFormat.
Proof. split; [by repeat constructor | by split]. Qed.

(** ** Jurisdiction *)

Lemma validate_jurisdiction_none (record : dict) :
  alias_chain record jurisdiction_keys = VNone →
  validate_jurisdiction record = Raise (ValueError "Jurisdiction is not defined").
Proof.
  unfold jurisdiction_keys, validate_jurisdiction. cbn [alias_chain].
  by intros ->.
Qed.

Lemma validate_jurisdiction_str (record : dict) s :
  alias_chain record jurisdiction_keys = VStr s →
  validate_jurisdiction record
  = if whitespace_only s then Raise (ValueError "Jurisdiction is empty")
    else if Py.matches_prefix iso3166_re (Py.strip s)
         then Return (VStr (Py.strip s))
         else Raise (ValueError "Wrong ISO 3166 code").
Proof.
  unfold jurisdiction_keys, validate_jurisdiction. cbn [alias_chain].
  intros ->. cbn [Py.is_none Py.strip_method Py.re_match mbind outcome_bind].
  destruct (whitespace_only s) eqn:Hs.
  - apply strip_empty in Hs as ->. done.
  - destruct (Py.not_ (VStr (Py.strip s))) eqn:He.
    + apply not_empty_str, strip_empty in He. congruence.
    + by destruct (Py.matches_prefix iso3166_re (Py.strip s)).
Qed.

(** C7 (as the code has it): the jurisdiction validator fails with
    MissingField when the chain of lookups of jurisdiction, country
    yields none, which is when jurisdiction is absent or falsy and country
    is absent or holds none.  A string that the chain yields is trimmed;
    it fails with EmptyField when nothing is left, the empty string that
    country may hold included; it fails with InvalidFormat when what is
    left does not start with two uppercase letters; otherwise what is
    left is returned, whatever follows the two letters. *)
Theorem jurisdiction_policy (record : dict) :
  (alias_chain record jurisdiction_keys = VNone
   ↔ unset record "jurisdiction"
     ∧ (record !! "country" = None ∨ record !! "country" = Some VNone))
  ∧ (alias_chain record jurisdiction_keys = VNone →
     fails_with (validate_jurisdiction record) MissingField)
  ∧ (∀ s, alias_chain record jurisdiction_keys = VStr s →
       (Py.strip s = "" →
        fails_with (validate_jurisdiction record) EmptyField)
       ∧ (Py.strip s ≠ "" →
          Py.matches_prefix iso3166_re (Py.strip s) = false →
          fails_with (validate_jurisdiction record) InvalidFormat)
       ∧ (Py.strip s ≠ "" →
          Py.matches_prefix iso3166_re (Py.strip s) = true →
          validate_jurisdiction record = Return (VStr (Py.strip s)))).
Proof.
  split; [|split].
  - unfold jurisdiction_keys. cbn [alias_chain]. by rewrite or_none, get_none.
  - intros H. by rewrite (validate_jurisdiction_none record H).
  - intros s H. rewrite (validate_jurisdiction_str record s H).
    repeat split.
    + intros ->%strip_empty. done.
    + intros He Hm. destruct (whitespace_only s) eqn:Hs.
      * by apply strip_empty in Hs.
      * by rewrite Hm.
    + intros He Hm. destruct (whitespace_only s) eqn:Hs.
      * by apply strip_empty in Hs.
      * by rewrite Hm.
Qed.

Lemma jurisdiction_policy_witness :
  validate_jurisdiction (<["jurisdiction" := VStr " US "]> example_record)
  = Return (VStr "US")
  ∧ fails_with (validate_jurisdiction (<["jurisdiction" := VStr "us"]> example_record))
      InvalidFormat
  ∧ fails_with (validate_jurisdiction (<["jurisdiction" := VStr "  "]> example_record))
      EmptyField
  ∧ fails_with (validate_jurisdiction (delete "jurisdiction" example_record))
      MissingField.
Proof.
  split; [|split; [|split]].
  - destruct (jurisdiction_policy (<["jurisdiction" := VStr " US "]> example_record))
      as (_ & _ & H).
    destruct (H " US ") as (_ & _ & H'); [done|]. by apply H'.
  - destruct (jurisdiction_policy (<["jurisdiction" := VStr "us"]> example_record))
      as (_ & _ & H).
    destruct (H "us") as (_ & H' & _); [done|]. by apply H'.
  - destruct (jurisdiction_policy (<["jurisdiction" := VStr "  "]> example_record))
      as (_ & _ & H).
    destruct (H "  ") as (H' & _); [done|]. by apply H'.
  - destruct (jurisdiction_policy (delete "jurisdiction" example_record))
      as (_ & H & _).
    by apply H.
Defined.

(** C7, refuted as stated: in a record whose only alias is an empty
    "country", neither alias holds a truthy value, and the validator
    fails with EmptyField, not with MissingField. *)
Lemma jurisdiction_empty_country_is_empty_field :
  Forall (unset (<["country" := VStr ""]> ∅)) jurisdiction_keys
  ∧ validate_jurisdiction (<["country" := VStr ""]> ∅)
    = Raise (ValueError "Jurisdiction is empty")
  ∧ fails_with (validate_jurisdiction (<["country" := VStr ""]> ∅)) EmptyField.
Proof. split; [by repeat constructor | by split]. Qed.

(** ** Body *)

Lemma validate_body_missing (record : dict) :
  record !! "body" = None ∨ record !! "body" = Some VNone →
  validate_body record = Raise (ValueError "Missing body in response").
Proof. unfold validate_body, Py.get. by intros [-> | ->]. Qed.

Lemma validate_body_str (record : dict) s :
  record !! "body" = Some (VStr s) →
  validate_body record
  = if whitespace_only s then Raise (ValueError "Empty body")
    else Return (VStr (Py.strip s)).
Proof.
  unfold validate_body, Py.get. intros ->.
  cbn [default from_option id Py.is_none Py.strip_method mbind outcome_bind].
  destruct (whitespace_only s) eqn:Hs.
  - apply strip_empty in Hs as ->. done.
  - destruct (Py.not_ (VStr (Py.strip s))) eqn:He; [|done].
    apply not_empty_str, strip_empty in He. congruence.
Qed.

Lemma validate_body_return (record : dict) b :
  validate_body record = Return b →
  ∃ s, record !! "body" = Some (VStr s)
       ∧ b = VStr (Py.strip s) ∧ Py.strip s ≠ "".
Proof.
  destruct (record !! "body") as [[| | | |s]|] eqn:Hb;
    try (unfold validate_body, Py.get; by rewrite Hb).
  rewrite (validate_body_str record s Hb).
  destruct (whitespace_only s) eqn:Hs; [done|]. intros [= <-].
  exists s. repeat split. intros He%strip_empty. congruence.
Qed.

(** C9 (as the code has it): validation reaches the body after the
    published and title validators.  When these two succeed, a record
    without "body" fails with MissingField and a record whose body is a
    string of white space only fails with EmptyField.  Whenever
    validation returns a document, the record holds a string under
    "body" and the body of the document is that string trimmed, which is
    not empty. *)
Theorem body_policy (parse : string → outcome float) (now : float)
    (record : dict) :
  (∀ p t,
     validate_published parse now record = Return p →
     validate_title record = Return t →
     (record !! "body" = None →
      fails_with (validate_response parse now record) MissingField)
     ∧ (∀ s, record !! "body" = Some (VStr s) → whitespace_only s = true →
          fails_with (validate_response parse now record) EmptyField))
  ∧ (∀ doc : dict,
       validate_response parse now record = Return doc →
       ∃ s, record !! "body" = Some (VStr s)
            ∧ doc !! "body" = Some (VStr (Py.strip s))
            ∧ Py.strip s ≠ "").
Proof.
  split.
  - intros p t Hp Ht. unfold validate_response. rewrite Hp, Ht.
    cbn [mbind outcome_bind]. split.
    + intros Hb. rewrite validate_body_missing; [done | by left].
    + intros s Hb Hs. rewrite (validate_body_str record s Hb), Hs. done.
  - intros doc (p & b & _ & Hb & _ & Hdoc)%validate_response_return.
    apply validate_body_return in Hb as (s & Hs & -> & He). by exists s.
Qed.

Lemma body_policy_witness :
  fails_with (validate_response example_parser 100%float (delete "body" example_record))
    MissingField
  ∧ fails_with
      (validate_response example_parser 100%float
         (<["body" := VStr "   "]> example_record))
      EmptyField
  ∧ ∃ doc : dict,
      validate_response example_parser 100%float
        (<["body" := VStr " text "]> example_record) = Return doc
      ∧ doc !! "body" = Some (VStr "text").
Proof.
  split; [|split].
  - destruct (body_policy example_parser 100%float (delete "body" example_record))
      as (H & _).
    destruct (H (VFloat 100%float) (VStr "")) as (H' & _); [done..|].
    by apply H'.
  - destruct (body_policy example_parser 100%float
                (<["body" := VStr "   "]> example_record)) as (H & _).
    destruct (H (VFloat 100%float) (VStr "")) as (_ & H'); [done..|].
    by apply (H' "   ").
  - destruct (body_policy example_parser 100%float
                (<["body" := VStr " text "]> example_record)) as (_ & H).
    eexists. split; [reflexivity|].
    destruct (H _ eq_refl) as (s & [= <-] & Hdoc & _). exact Hdoc.
Defined.

(** C9, refuted as stated: a record without "body" whose published
    value is the float -5 fails with InvalidType, the error of the
    published validator, not with MissingField. *)
Lemma missing_body_yields_published_error :
  (<["published" := VFloat (-5)%float]> ∅ : dict) !! "body" = None
  ∧ validate_response example_parser 100%float
      (<["published" := VFloat (-5)%float]> ∅)
    = Raise (ValueError "Published time should be a timestamp (float)")
  ∧ fails_with
      (validate_response example_parser 100%float
         (<["published" := VFloat (-5)%float]> ∅))
      InvalidType.
Proof. repeat split; vm_compute; reflexivity. Qed.

(** ** Values that are not strings *)

(** C10: there is a record that passes the body, name, short name,
    language and jurisdiction validators, and holds none under "title",
    on which validation raises an attribute error for the missing
    [strip], which is none of the four kinds of validation failure; and
    there is one that passes the name, short name, language and
    jurisdiction validators, and holds a number under "body", on which
    validation raises the same kind of error. *)
Theorem untyped_attribute_error :
  (∃ record : dict,
     record !! "title" = Some VNone
     ∧ (∃ v, validate_body record = Return v)
     ∧ (∃ v, validate_institution_name record = Return v)
     ∧ (∃ v, validate_short_institution_name record = Return v)
     ∧ (∃ v, validate_lang record = Return v)
     ∧ (∃ v, validate_jurisdiction record = Return v)
     ∧ (∀ parse now,
          validate_response parse now record
          = Raise (AttributeError "NoneType" "strip"))
     ∧ kind_of (AttributeError "NoneType" "strip") = None)
  ∧ (∃ record : dict,
       record !! "body" = Some (VInt 7)
       ∧ (∃ v, validate_institution_name record = Return v)
       ∧ (∃ v, validate_short_institution_name record = Return v)
       ∧ (∃ v, validate_lang record = Return v)
       ∧ (∃ v, validate_jurisdiction record = Return v)
       ∧ (∀ parse now,
            validate_response parse now record
            = Raise (AttributeError "int" "strip"))
       ∧ kind_of (AttributeError "int" "strip") = None).
Proof.
  split.
  - exists (<["title" := VNone]> example_record).
    repeat split; try (eexists; vm_compute; reflexivity).
  - exists (<["body" := VInt 7]> example_record).
    repeat split; try (eexists; vm_compute; reflexivity).
Qed.

(** * Further properties of the module *)

(** ** Trimming twice *)

Lemma lstrip_rstrip_lstrip s :
  Py.lstrip (Py.rstrip (Py.lstrip s)) = Py.rstrip (Py.lstrip s).
Proof.
  induction s as [|c s IH]; [done|]. cbn [Py.lstrip].
  destruct (Py.isspace c) eqn:Hc; [done|]. cbn [Py.rstrip].
  destruct (Py.rstrip s); rewrite ?Hc; cbn [Py.lstrip]; by rewrite Hc.
Qed.

Lemma rstrip_rstrip s : Py.rstrip (Py.rstrip s) = Py.rstrip s.
Proof.
  induction s as [|c s IH]; [done|]. cbn [Py.rstrip].
  destruct (Py.rstrip s) as [|c' r] eqn:Hr.
  - destruct (Py.isspace c) eqn:Hc; [done|]. cbn [Py.rstrip]. by rewrite Hc.
  - change (Py.rstrip (String c (String c' r)))
      with (match Py.rstrip (String c' r) with
            | "" => if Py.isspace c then "" else String c ""
            | r' => String c r'
            end).
    by rewrite IH.
Qed.

Lemma strip_strip s : trimmed (Py.strip s).
Proof.
  unfold trimmed, Py.strip. by rewrite lstrip_rstrip_lstrip, rstrip_rstrip.
Qed.

Lemma trimmed_not_blank s : trimmed s → s ≠ "" → whitespace_only s = false.
Proof.
  intros Hs Hne. destruct (whitespace_only s) eqn:Hw; [|done].
  apply strip_empty in Hw. unfold trimmed in Hs. congruence.
Qed.

Lemma truthy_str s : Py.truthy (VStr s) = true ↔ s ≠ "".
Proof.
  simpl. rewrite negb_true_iff. split.
  - intros H ->. by rewrite String.eqb_refl in H.
  - intros H. by apply String.eqb_neq.
Qed.

(** ** The validators on the value of their chain *)

Lemma validate_institution_name_chain (record : dict) :
  validate_institution_name record
  = required_name "Institution name missing" (alias_chain record name_keys).
Proof. reflexivity. Qed.

Lemma validate_short_institution_name_chain (record : dict) :
  validate_short_institution_name record
  = required_name "Short institution name missing"
      (alias_chain record short_name_keys).
Proof. reflexivity. Qed.

Lemma validate_jurisdiction_state_chain (record : dict) :
  validate_jurisdiction_state record
  = optional_part (alias_chain record state_keys).
Proof. reflexivity. Qed.

Lemma validate_jurisdiction_municipality_chain (record : dict) :
  validate_jurisdiction_municipality record
  = optional_part (alias_chain record municipality_keys).
Proof. reflexivity. Qed.

Lemma truthy_or a b :
  Py.truthy (Py.or_ a b) = Py.truthy a || Py.truthy b.
Proof. unfold Py.or_. by destruct (Py.truthy a) eqn:Ha. Qed.

Lemma alias_chain_falsy (record : dict) keys :
  Py.truthy (alias_chain record keys) = false ↔ Forall (unset record) keys.
Proof.
  induction keys as [|k [|k' ks] IH].
  - split; [constructor | done].
  - cbn [alias_chain]. rewrite Forall_cons, Forall_nil. unfold unset. tauto.
  - rewrite alias_chain_cons, truthy_or, orb_false_iff, IH.
    by rewrite (Forall_cons _ k).
Qed.

Lemma required_name_missing msg v :
  required_name msg v = Raise (ValueError msg) ↔ Py.truthy v = false.
Proof.
  unfold required_name, Py.not_.
  destruct v as [|b|n|x|s]; simpl; try done.
  - destruct b; simpl; split; congruence.
  - destruct (n =? 0)%Z; simpl; split; congruence.
  - destruct (PrimFloat.eqb x 0); simpl; split; congruence.
  - destruct (String.eqb s ""); simpl; split; congruence.
Qed.

Lemma required_name_str msg s :
  s ≠ "" → required_name msg (VStr s) = Return (VStr (Py.strip s)).
Proof.
  intros Hs%truthy_str. unfold required_name, Py.not_. by rewrite Hs.
Qed.

Lemma required_name_return msg v x :
  required_name msg v = Return x →
  ∃ s, v = VStr s ∧ s ≠ "" ∧ x = VStr (Py.strip s).
Proof.
  unfold required_name, Py.not_.
  destruct (Py.truthy v) eqn:Hv;
    [|by rewrite orb_true_r]. rewrite orb_false_r.
  destruct v as [|b|n|x'|s]; try done; simpl.
  intros [= <-]. exists s. by apply truthy_str in Hv.
Qed.

Lemma required_name_raise msg v e :
  required_name msg v = Raise e →
  e = ValueError msg ∨ e = AttributeError (Py.type_name v) "strip".
Proof.
  unfold required_name. destruct (Py.is_none v || Py.not_ v).
  - intros [= <-]. by left.
  - destruct v; simpl; intros [= <-]; by right.
Qed.

Lemma optional_part_str s :
  optional_part (VStr s)
  = if whitespace_only s then Return VNone else Return (VStr (Py.strip s)).
Proof.
  unfold optional_part; simpl.
  destruct (whitespace_only s) eqn:Hs.
  - apply strip_empty in Hs as ->. done.
  - destruct (Py.not_ (VStr (Py.strip s))) eqn:He; [|done].
    apply not_empty_str, strip_empty in He. congruence.
Qed.

Lemma optional_part_return v x :
  optional_part v = Return x → none_or_trimmed x.
Proof.
  destruct v as [|b|n|x'|s]; try done.
  - intros [= <-]. by left.
  - rewrite optional_part_str. destruct (whitespace_only s) eqn:Hs.
    + intros [= <-]. by left.
    + intros [= <-]. right. exists (Py.strip s). repeat split.
      * intros He%strip_empty. congruence.
      * apply strip_strip.
Qed.

Lemma optional_part_raise v e :
  optional_part v = Raise e → e = AttributeError (Py.type_name v) "strip".
Proof.
  destruct v as [|b|n|x'|s]; try done; try by intros [= <-].
  rewrite optional_part_str. by destruct (whitespace_only s).
Qed.

Lemma optional_part_trimmed s :
  s ≠ "" → trimmed s → optional_part (VStr s) = Return (VStr s).
Proof.
  intros Hne Hs. rewrite optional_part_str.
  rewrite (trimmed_not_blank s Hs Hne). by rewrite Hs.
Qed.

(** ** Names *)

(** X1: the name validator reports a missing institution name exactly
    when neither institution_name nor name holds a truthy value, of any
    type; the short name validator does so exactly when none of
    short_institution_name, short_name, short holds one. *)
Theorem names_missing_iff (record : dict) :
  (validate_institution_name record
   = Raise (ValueError "Institution name missing")
   ↔ Forall (unset record) name_keys)
  ∧ (validate_short_institution_name record
     = Raise (ValueError "Short institution name missing")
     ↔ Forall (unset record) short_name_keys).
Proof.
  rewrite validate_institution_name_chain, validate_short_institution_name_chain.
  by rewrite !required_name_missing, !alias_chain_falsy.
Qed.

(** X2: a name that is not empty but consists of white space only is
    accepted: the name validators test the string before they trim it,
    and return the empty string. *)
Theorem blank_name_is_accepted (record : dict) (s : string) :
  s ≠ "" →
  whitespace_only s = true →
  (alias_chain record name_keys = VStr s →
   validate_institution_name record = Return (VStr ""))
  ∧ (alias_chain record short_name_keys = VStr s →
     validate_short_institution_name record = Return (VStr "")).
Proof.
  intros Hne Hs%strip_empty.
  rewrite validate_institution_name_chain, validate_short_institution_name_chain.
  split; intros ->; by rewrite required_name_str, Hs.
Qed.

Lemma blank_name_is_accepted_witness :
  validate_institution_name (<["name" := VStr "  "]> example_record)
  = Return (VStr "")
  ∧ validate_short_institution_name (<["short_name" := VStr " "]> example_record)
    = Return (VStr "").
Proof.
  split.
  - by apply (blank_name_is_accepted
                (<["name" := VStr "  "]> example_record) "  ").
  - by apply (blank_name_is_accepted
                (<["short_name" := VStr " "]> example_record) " ").
Defined.

(** ** State and municipality *)

(** X3: the validators of the state and of the municipality never
    report a validation failure.  What they return is none or a trimmed
    string that is not empty; they return none when their chain yields
    none or a string of white space only, and the trimmed string for any
    other string; the only exception they raise is the attribute error of
    a value that is neither none nor a string. *)
Theorem optional_parts_policy (record : dict) :
  ((∀ x, validate_jurisdiction_state record = Return x → none_or_trimmed x)
   ∧ (∀ e, validate_jurisdiction_state record = Raise e →
        e = AttributeError (Py.type_name (alias_chain record state_keys)) "strip"
        ∧ kind_of e = None)
   ∧ (alias_chain record state_keys = VNone →
      validate_jurisdiction_state record = Return VNone)
   ∧ (∀ s, alias_chain record state_keys = VStr s →
        validate_jurisdiction_state record
        = if whitespace_only s then Return VNone
          else Return (VStr (Py.strip s))))
  ∧ ((∀ x, validate_jurisdiction_municipality record = Return x →
        none_or_trimmed x)
     ∧ (∀ e, validate_jurisdiction_municipality record = Raise e →
          e = AttributeError
                (Py.type_name (alias_chain record municipality_keys)) "strip"
          ∧ kind_of e = None)
     ∧ (alias_chain record municipality_keys = VNone →
        validate_jurisdiction_municipality record = Return VNone)
     ∧ (∀ s, alias_chain record municipality_keys = VStr s →
          validate_jurisdiction_municipality record
          = if whitespace_only s then Return VNone
            else Return (VStr (Py.strip s)))).
Proof.
  rewrite validate_jurisdiction_state_chain,
    validate_jurisdiction_municipality_chain.
  split; (split; [apply optional_part_return|]);
    (split; [by intros e ->%optional_part_raise|]);
    (split; [by intros ->|]); intros s ->; apply optional_part_str.
Qed.

(** ** What the validators return *)

Lemma in_true v (l : list string) :
  Py.in_ v l = true → ∃ s, v = VStr s ∧ s ∈ l.
Proof.
  destruct v as [|b|n|x|s]; try (by rewrite in_other).
  intros Hs%in_str. by exists s.
Qed.

Lemma taxonomy_return (record : dict) v :
  (validate_source_type record = Return v → ∃ s, v = VStr s ∧ s ∈ SOURCE_TYPES)
  ∧ (validate_document_type record = Return v →
     ∃ s, v = VStr s ∧ s ∈ DOCUMENT_TYPES)
  ∧ (validate_importance record = Return v → ∃ s, v = VStr s ∧ s ∈ IMPORTANCE).
Proof.
  unfold validate_source_type, validate_document_type, validate_importance.
  split; [|split].
  - destruct (Py.in_ _ SOURCE_TYPES) eqn:Hin.
    + rewrite orb_false_r. destruct (Py.is_none _); intros [= <-].
      * eexists; split; [done | set_solver].
      * by apply in_true.
    + rewrite orb_true_r. intros [= <-]. eexists; split; [done | set_solver].
  - destruct (Py.in_ _ DOCUMENT_TYPES) eqn:Hin.
    + rewrite orb_false_r. destruct (Py.is_none _); intros [= <-].
      * eexists; split; [done | set_solver].
      * by apply in_true.
    + rewrite orb_true_r. intros [= <-]. eexists; split; [done | set_solver].
  - destruct (Py.in_ _ IMPORTANCE) eqn:Hin; intros [= <-].
    + by apply in_true.
    + eexists; split; [done | set_solver].
Qed.

Lemma taxonomy_member (record : dict) s :
  (record !! "source_type" = Some (VStr s) → s ∈ SOURCE_TYPES →
   validate_source_type record = Return (VStr s))
  ∧ (record !! "document_type" = Some (VStr s) → s ∈ DOCUMENT_TYPES →
     validate_document_type record = Return (VStr s))
  ∧ (record !! "importance" = Some (VStr s) → s ∈ IMPORTANCE →
     validate_importance record = Return (VStr s)).
Proof.
  split; [|split]; intros Hk Hs.
  - by apply source_type_falls_back.
  - by apply document_type_falls_back.
  - by apply importance_falls_back.
Qed.

Lemma validate_published_return parse now (record : dict) p :
  validate_published parse now record = Return p → ∃ x, p = VFloat x.
Proof.
  unfold validate_published.
  destruct (Py.get record "published" VNone) as [|b|n|x|s]; try done.
  - intros [= <-]. by eexists.
  - destruct (PrimFloat.ltb 0 x); [|done]. intros [= <-]. by eexists.
  - destruct (parsedate parse s) as [[g|]|]; [| |done]; intros [= <-]; by eexists.
Qed.

Lemma validate_published_float parse now (record : dict) x :
  record !! "published" = Some (VFloat x) → PrimFloat.ltb 0 x = true →
  validate_published parse now record = Return (VFloat x).
Proof.
  unfold validate_published, Py.get. intros -> Hx; simpl. by rewrite Hx.
Qed.

Lemma validate_title_str (record : dict) s :
  record !! "title" = Some (VStr s) →
  validate_title record = Return (VStr (Py.strip s)).
Proof. unfold validate_title, Py.get. by intros ->. Qed.

Lemma validate_title_return (record : dict) t :
  validate_title record = Return t → ∃ s, t = VStr s ∧ trimmed s.
Proof.
  unfold validate_title.
  destruct (Py.get record "title" (VStr "")) as [|b|n|x|s]; try done.
  intros [= <-]. exists (Py.strip s). split; [done | apply strip_strip].
Qed.

Lemma validate_lang_return (record : dict) v :
  validate_lang record = Return v →
  ∃ s, v = VStr s ∧ alias_chain record lang_keys = VStr s
       ∧ Py.matches_prefix simple_re s = true.
Proof.
  destruct (alias_chain record lang_keys) as [|b|n|x|s] eqn:Hc.
  - by rewrite (validate_lang_none record Hc).
  - unfold lang_keys in Hc. cbn [alias_chain] in Hc.
    unfold validate_lang. by rewrite Hc.
  - unfold lang_keys in Hc. cbn [alias_chain] in Hc.
    unfold validate_lang. by rewrite Hc.
  - unfold lang_keys in Hc. cbn [alias_chain] in Hc.
    unfold validate_lang. by rewrite Hc.
  - rewrite (validate_lang_str record s Hc).
    destruct (Py.matches_prefix simple_re s) eqn:Hs; [|done].
    intros [= <-]. by exists s.
Qed.

Lemma validate_jurisdiction_return (record : dict) v :
  validate_jurisdiction record = Return v →
  ∃ s, v = VStr s ∧ s ≠ "" ∧ trimmed s
       ∧ Py.matches_prefix iso3166_re s = true.
Proof.
  destruct (alias_chain record jurisdiction_keys) as [|b|n|x|s] eqn:Hc.
  - by rewrite (validate_jurisdiction_none record Hc).
  - unfold jurisdiction_keys in Hc. cbn [alias_chain] in Hc.
    unfold validate_jurisdiction. by rewrite Hc.
  - unfold jurisdiction_keys in Hc. cbn [alias_chain] in Hc.
    unfold validate_jurisdiction. by rewrite Hc.
  - unfold jurisdiction_keys in Hc. cbn [alias_chain] in Hc.
    unfold validate_jurisdiction. by rewrite Hc.
  - rewrite (validate_jurisdiction_str record s Hc).
    destruct (whitespace_only s) eqn:Hw; [done|].
    destruct (Py.matches_prefix iso3166_re (Py.strip s)) eqn:Hm; [|done].
    intros [= <-]. exists (Py.strip s). repeat split; [|apply strip_strip|done].
    intros He%strip_empty. congruence.
Qed.

Lemma validate_jurisdiction_trimmed (record : dict) s :
  alias_chain record jurisdiction_keys = VStr s → s ≠ "" → trimmed s →
  Py.matches_prefix iso3166_re s = true →
  validate_jurisdiction record = Return (VStr s).
Proof.
  intros Hc Hne Hs Hm. rewrite (validate_jurisdiction_str record s Hc).
  rewrite (trimmed_not_blank s Hs Hne), Hs. by rewrite Hm.
Qed.

Lemma validate_body_trimmed (record : dict) s :
  record !! "body" = Some (VStr s) → s ≠ "" → trimmed s →
  validate_body record = Return (VStr s).
Proof.
  intros Hb Hne Hs. rewrite (validate_body_str record s Hb).
  by rewrite (trimmed_not_blank s Hs Hne), Hs.
Qed.

Lemma validate_response_inv parse now (record doc : dict) :
  validate_response parse now record = Return doc →
  ∃ p t b n sn st dt lc j js jm im,
    validate_published parse now record = Return p
    ∧ validate_title record = Return t
    ∧ validate_body record = Return b
    ∧ validate_institution_name record = Return n
    ∧ validate_short_institution_name record = Return sn
    ∧ validate_source_type record = Return st
    ∧ validate_document_type record = Return dt
    ∧ validate_lang record = Return lc
    ∧ validate_jurisdiction record = Return j
    ∧ validate_jurisdiction_state record = Return js
    ∧ validate_jurisdiction_municipality record = Return jm
    ∧ validate_importance record = Return im
    ∧ doc = document p t b n sn st dt lc j js jm im.
Proof.
  unfold validate_response.
  destruct (validate_published parse now record) as [p|]; [|done].
  destruct (validate_title record) as [t|]; [|done].
  destruct (validate_body record) as [b|]; [|done].
  destruct (validate_institution_name record) as [n|]; [|done].
  destruct (validate_short_institution_name record) as [sn|]; [|done].
  destruct (validate_source_type record) as [st|]; [|done].
  destruct (validate_document_type record) as [dt|]; [|done].
  destruct (validate_lang record) as [lc|]; [|done].
  destruct (validate_jurisdiction record) as [j|]; [|done].
  destruct (validate_jurisdiction_state record) as [js|]; [|done].
  destruct (validate_jurisdiction_municipality record) as [jm|]; [|done].
  destruct (validate_importance record) as [im|]; [|done].
  intros [= <-]. by exists p, t, b, n, sn, st, dt, lc, j, js, jm, im.
Qed.

Lemma validate_response_intro parse now (record : dict)
    p t b n sn st dt lc j js jm im :
  validate_published parse now record = Return p →
  validate_title record = Return t →
  validate_body record = Return b →
  validate_institution_name record = Return n →
  validate_short_institution_name record = Return sn →
  validate_source_type record = Return st →
  validate_document_type record = Return dt →
  validate_lang record = Return lc →
  validate_jurisdiction record = Return j →
  validate_jurisdiction_state record = Return js →
  validate_jurisdiction_municipality record = Return jm →
  validate_importance record = Return im →
  validate_response parse now record
  = Return (document p t b n sn st dt lc j js jm im).
Proof.
  unfold validate_response. by intros -> -> -> -> -> -> -> -> -> -> -> ->.
Qed.

(** ** The validated document *)

Lemma document_fields p t b n sn st dt lc j js jm im :
  let doc := document p t b n sn st dt lc j js jm im in
  doc !! "published" = Some p ∧ doc !! "title" = Some t
  ∧ doc !! "body" = Some b ∧ doc !! "name" = Some n
  ∧ doc !! "short_name" = Some sn ∧ doc !! "source_type" = Some st
  ∧ doc !! "document_type" = Some dt ∧ doc !! "lang_code" = Some lc
  ∧ doc !! "jurisdiction" = Some j ∧ doc !! "jurisdiction_state" = Some js
  ∧ doc !! "jurisdiction_municipality" = Some jm
  ∧ doc !! "importance" = Some im.
Proof.
  unfold document. cbn [Py.display foldl fst snd].
  repeat split; by simplify_map_eq.
Qed.

Lemma document_dom p t b n sn st dt lc j js jm im :
  dom (document p t b n sn st dt lc j js jm im) = list_to_set document_keys.
Proof.
  unfold document, document_keys. cbn [Py.display foldl fst snd list_to_set].
  rewrite !dom_insert_L, dom_empty_L.
  apply set_eq. intros k.
  rewrite !elem_of_union, !elem_of_singleton, elem_of_empty. tauto.
Qed.

(** X4: a document that validation returns has exactly the twelve keys
    published, title, body, name, short_name, source_type, document_type,
    lang_code, jurisdiction, jurisdiction_state,
    jurisdiction_municipality, importance, and under each key the value
    that the validator of that field returned. *)
Theorem document_shape (parse : string → outcome float) (now : float)
    (record doc : dict) :
  validate_response parse now record = Return doc →
  dom doc = list_to_set document_keys
  ∧ Forall (λ kv : string * (dict → outcome value),
              ∃ x, kv.2 record = Return x ∧ doc !! kv.1 = Some x)
      (validation_order parse now).
Proof.
  intros (p & t & b & n & sn & st & dt & lc & j & js & jm & im
          & Hp & Ht & Hb & Hn & Hsn & Hst & Hdt & Hlc & Hj & Hjs & Hjm & Him
          & ->)%validate_response_inv.
  split; [apply document_dom|].
  destruct (document_fields p t b n sn st dt lc j js jm im)
    as (? & ? & ? & ? & ? & ? & ? & ? & ? & ? & ? & ?).
  unfold validation_order. repeat constructor; cbn [fst snd]; eauto.
Qed.

Lemma document_shape_witness :
  ∃ doc : dict,
    validate_response example_parser 100%float example_record = Return doc
    ∧ dom doc = list_to_set document_keys
    ∧ doc !! "lang_code" = Some (VStr "en").
Proof.
  eexists. split; [reflexivity|].
  destruct (document_shape example_parser 100%float example_record _ eq_refl)
    as (Hdom & _).
  split; [exact Hdom | reflexivity].
Defined.

(** X5: in a document that validation returns, published is a float,
    the source type, the document type and the importance are members of
    their taxonomies, the language code is a string that starts with two
    lowercase letters and the jurisdiction one that starts with two
    uppercase letters. *)
Theorem document_fields_are_typed (parse : string → outcome float)
    (now : float) (record doc : dict) :
  validate_response parse now record = Return doc →
  (∃ x, doc !! "published" = Some (VFloat x))
  ∧ (∃ s, doc !! "source_type" = Some (VStr s) ∧ s ∈ SOURCE_TYPES)
  ∧ (∃ s, doc !! "document_type" = Some (VStr s) ∧ s ∈ DOCUMENT_TYPES)
  ∧ (∃ s, doc !! "importance" = Some (VStr s) ∧ s ∈ IMPORTANCE)
  ∧ (∃ s, doc !! "lang_code" = Some (VStr s)
          ∧ Py.matches_prefix simple_re s = true)
  ∧ (∃ s, doc !! "jurisdiction" = Some (VStr s)
          ∧ Py.matches_prefix iso3166_re s = true).
Proof.
  intros (p & t & b & n & sn & st & dt & lc & j & js & jm & im
          & Hp & Ht & Hb & Hn & Hsn & Hst & Hdt & Hlc & Hj & Hjs & Hjm & Him
          & ->)%validate_response_inv.
  destruct (document_fields p t b n sn st dt lc j js jm im)
    as (-> & _ & _ & _ & _ & -> & -> & -> & -> & _ & _ & ->).
  apply validate_published_return in Hp as (x & ->).
  apply taxonomy_return in Hst as (s1 & -> & ?).
  apply taxonomy_return in Hdt as (s2 & -> & ?).
  apply taxonomy_return in Him as (s3 & -> & ?).
  apply validate_lang_return in Hlc as (s4 & -> & _ & ?).
  apply validate_jurisdiction_return in Hj as (s5 & -> & _ & _ & ?).
  repeat split; eauto.
Qed.

Lemma document_fields_are_typed_witness :
  ∃ doc : dict,
    validate_response example_parser 100%float
      (<["source_type" := VInt 4]> example_record) = Return doc
    ∧ ∃ s, doc !! "source_type" = Some (VStr s) ∧ s ∈ SOURCE_TYPES.
Proof.
  assert (∃ doc, validate_response example_parser 100%float
                   (<["source_type" := VInt 4]> example_record) = Return doc)
    as [doc Hdoc] by (eexists; vm_compute; reflexivity).
  exists doc. split; [exact Hdoc|].
  destruct (document_fields_are_typed example_parser 100%float
              (<["source_type" := VInt 4]> example_record) doc Hdoc)
    as (_ & H & _).
  exact H.
Defined.

(** X6: in a document that validation returns, the title, the body, the
    name, the short name and the jurisdiction are strings without white
    space at either end, the body and the jurisdiction are not empty, and
    the state and the municipality are none or such a string that is not
    empty. *)
Theorem document_strings_are_trimmed (parse : string → outcome float)
    (now : float) (record doc : dict) :
  validate_response parse now record = Return doc →
  (∃ s, doc !! "title" = Some (VStr s) ∧ trimmed s)
  ∧ (∃ s, doc !! "body" = Some (VStr s) ∧ trimmed s ∧ s ≠ "")
  ∧ (∃ s, doc !! "name" = Some (VStr s) ∧ trimmed s)
  ∧ (∃ s, doc !! "short_name" = Some (VStr s) ∧ trimmed s)
  ∧ (∃ s, doc !! "jurisdiction" = Some (VStr s) ∧ trimmed s ∧ s ≠ "")
  ∧ (∃ v, doc !! "jurisdiction_state" = Some v ∧ none_or_trimmed v)
  ∧ (∃ v, doc !! "jurisdiction_municipality" = Some v ∧ none_or_trimmed v).
Proof.
  intros (p & t & b & n & sn & st & dt & lc & j & js & jm & im
          & Hp & Ht & Hb & Hn & Hsn & Hst & Hdt & Hlc & Hj & Hjs & Hjm & Him
          & ->)%validate_response_inv.
  destruct (document_fields p t b n sn st dt lc j js jm im)
    as (_ & -> & -> & -> & -> & _ & _ & _ & -> & -> & -> & _).
  apply validate_title_return in Ht as (s1 & -> & ?).
  apply validate_body_return in Hb as (s2 & _ & -> & ?).
  rewrite validate_institution_name_chain in Hn.
  apply required_name_return in Hn as (s3 & _ & _ & ->).
  rewrite validate_short_institution_name_chain in Hsn.
  apply required_name_return in Hsn as (s4 & _ & _ & ->).
  apply validate_jurisdiction_return in Hj as (s5 & -> & ? & ? & _).
  rewrite validate_jurisdiction_state_chain in Hjs.
  apply optional_part_return in Hjs.
  rewrite validate_jurisdiction_municipality_chain in Hjm.
  apply optional_part_return in Hjm.
  repeat split; eauto 6 using strip_strip.
Qed.

Lemma document_strings_are_trimmed_witness :
  ∃ doc : dict,
    validate_response example_parser 100%float
      (<["title" := VStr "  A title "]> example_record) = Return doc
    ∧ ∃ s, doc !! "title" = Some (VStr s) ∧ trimmed s.
Proof.
  assert (∃ doc, validate_response example_parser 100%float
                   (<["title" := VStr "  A title "]> example_record) = Return doc)
    as [doc Hdoc] by (eexists; vm_compute; reflexivity).
  exists doc. split; [exact Hdoc|].
  destruct (document_strings_are_trimmed example_parser 100%float
              (<["title" := VStr "  A title "]> example_record) doc Hdoc)
    as (H & _).
  exact H.
Defined.

(** ** Validating a validated document *)

Lemma get_some (d : dict) k v : d !! k = Some v → Py.get d k VNone = v.
Proof. unfold Py.get. by intros ->. Qed.

Lemma simple_not_empty s : Py.matches_prefix simple_re s = true → s ≠ "".
Proof. by intros H ->. Qed.

Lemma optional_part_fixed v :
  none_or_trimmed v → optional_part (Py.or_ v VNone) = Return v.
Proof.
  intros [-> | (s & -> & Hne & Hs)]; [done|].
  unfold Py.or_. rewrite (proj2 (truthy_str s) Hne).
  by apply optional_part_trimmed.
Qed.

(** X7: validation leaves a validated document as it is, whatever the
    parser and the clock, provided that the published time of the
    document is strictly positive and that its name and short name are
    not empty: the document is then a record that validates to itself. *)
Theorem validation_is_idempotent (parse : string → outcome float)
    (now : float) (record doc : dict) (x : float) :
  validate_response parse now record = Return doc →
  doc !! "published" = Some (VFloat x) →
  PrimFloat.ltb 0%float x = true →
  doc !! "name" ≠ Some (VStr "") →
  doc !! "short_name" ≠ Some (VStr "") →
  ∀ parse' now', validate_response parse' now' doc = Return doc.
Proof.
  intros (p & t & b & n & sn & st & dt & lc & j & js & jm & im
          & Hp & Ht & Hb & Hn & Hsn & Hst & Hdt & Hlc & Hj & Hjs & Hjm & Him
          & ->)%validate_response_inv.
  destruct (document_fields p t b n sn st dt lc j js jm im)
    as (Dp & Dt & Db & Dn & Dsn & Dst & Ddt & Dlc & Dj & Djs & Djm & Dim).
  set (doc := document _ _ _ _ _ _ _ _ _ _ _ _) in *.
  rewrite Dp, Dn, Dsn. intros [= ->] Hx Hname Hshort parse' now'.
  apply validate_title_return in Ht as (s1 & -> & Hs1).
  apply validate_body_return in Hb as (s2 & _ & -> & Hs2).
  rewrite validate_institution_name_chain in Hn.
  apply required_name_return in Hn as (s3 & _ & _ & ->).
  rewrite validate_short_institution_name_chain in Hsn.
  apply required_name_return in Hsn as (s4 & _ & _ & ->).
  apply taxonomy_return in Hst as (s5 & -> & Hs5).
  apply taxonomy_return in Hdt as (s6 & -> & Hs6).
  apply taxonomy_return in Him as (s7 & -> & Hs7).
  apply validate_lang_return in Hlc as (s8 & -> & _ & Hs8).
  apply validate_jurisdiction_return in Hj as (s9 & -> & Hne9 & Hs9 & Hm9).
  rewrite validate_jurisdiction_state_chain in Hjs.
  apply optional_part_return in Hjs.
  rewrite validate_jurisdiction_municipality_chain in Hjm.
  apply optional_part_return in Hjm.
  apply validate_response_intro.
  - by apply validate_published_float.
  - rewrite (validate_title_str doc s1 Dt). by rewrite Hs1.
  - apply validate_body_trimmed; [done..|apply strip_strip].
  - rewrite validate_institution_name_chain.
    assert (alias_chain doc name_keys = VStr (Py.strip s3)) as ->.
    { apply (alias_chain_first_truthy doc ["institution_name"] [] "name").
      - by repeat constructor.
      - done.
      - apply truthy_str. congruence. }
    rewrite required_name_str; [|congruence]. by rewrite strip_strip.
  - rewrite validate_short_institution_name_chain.
    assert (alias_chain doc short_name_keys = VStr (Py.strip s4)) as ->.
    { apply (alias_chain_first_truthy doc ["short_institution_name"] ["short"]
               "short_name").
      - by repeat constructor.
      - done.
      - apply truthy_str. congruence. }
    rewrite required_name_str; [|congruence]. by rewrite strip_strip.
  - by apply taxonomy_member.
  - by apply taxonomy_member.
  - rewrite (validate_lang_str doc s8); [by rewrite Hs8|].
    apply (alias_chain_first_truthy doc ["expected_language_code"]
             ["lang"; "language"] "lang_code" (VStr s8)).
    + by repeat constructor.
    + done.
    + by apply truthy_str, simple_not_empty.
  - apply validate_jurisdiction_trimmed; [|done..].
    apply (alias_chain_first_truthy doc [] ["country"] "jurisdiction" (VStr s9));
      [constructor | done | by apply truthy_str].
  - rewrite validate_jurisdiction_state_chain.
    unfold state_keys. cbn [alias_chain].
    rewrite (get_some doc "jurisdiction_state" js Djs).
    change (Py.get doc "state" VNone) with VNone.
    by apply optional_part_fixed.
  - rewrite validate_jurisdiction_municipality_chain.
    unfold municipality_keys. cbn [alias_chain].
    rewrite (get_some doc "jurisdiction_municipality" jm Djm).
    change (Py.get doc "municipality" VNone) with VNone.
    change (Py.get doc "town" VNone) with VNone.
    change (Py.or_ VNone VNone) with VNone.
    by apply optional_part_fixed.
  - by apply taxonomy_member.
Qed.

Lemma validation_is_idempotent_witness :
  ∃ doc : dict,
    validate_response example_parser 100%float
      (<["published" := VFloat 5%float]> example_record) = Return doc
    ∧ validate_response (table_parser []) 7%float doc = Return doc.
Proof.
  eexists. split; [vm_compute; reflexivity|].
  apply (validation_is_idempotent example_parser 100%float
           (<["published" := VFloat 5%float]> example_record) _ 5%float);
    [vm_compute; reflexivity | reflexivity | reflexivity | done | done].
Defined.

(** ** The keys that validation reads *)

(** X8: validation depends on the record only through the keys that its
    validators look up: two records that agree on these keys, whatever
    else they hold, get the same document or the same error. *)
Theorem validation_reads_only_its_keys (parse : string → outcome float)
    (now : float) (record record' : dict) :
  Forall (λ k, record !! k = record' !! k) read_keys →
  validate_response parse now record = validate_response parse now record'.
Proof.
  unfold read_keys. intros H.
  repeat (apply Forall_cons in H; destruct H as [? H]).
  unfold validate_response, validate_published, validate_title, validate_body,
    validate_institution_name, validate_short_institution_name,
    validate_source_type, validate_document_type, validate_lang,
    validate_jurisdiction, validate_jurisdiction_state,
    validate_jurisdiction_municipality, validate_importance, Py.get.
  repeat match goal with
         | Heq : record !! _ = record' !! _ |- _ => rewrite Heq; clear Heq
         end.
  reflexivity.
Qed.

Lemma validation_reads_only_its_keys_witness :
  validate_response example_parser 100%float
    (<["comment" := VInt 1]> (<["name_en" := VNone]> example_record))
  = validate_response example_parser 100%float example_record.
Proof.
  apply validation_reads_only_its_keys. by repeat constructor.
Defined.

(** ** More on the converter *)

Lemma convert_return (task result doc : dict) (timestamp : float) :
  convert task result timestamp = Return doc →
  ∃ taskid url,
    task !! "taskid" = Some taskid ∧ task !! "url" = Some url
    ∧ doc = <["crawled" := VFloat timestamp]>
              (<["version" := VFloat timestamp]>
                 (<["url" := url]> (<["id" := taskid]> result))).
Proof.
  unfold convert, Py.getitem.
  destruct (task !! "taskid") as [taskid|]; [|done].
  destruct (task !! "url") as [url|]; [|done].
  intros [= <-]. by exists taskid, url.
Qed.

(** X9: [convert] needs the two keys of the task and nothing else: it
    returns a document exactly when the task holds "taskid" and "url";
    without "taskid" it raises the key error of "taskid", whether "url" is
    there or not, and with "taskid" but without "url" that of "url". *)
Theorem convert_key_errors (task result : dict) (timestamp : float) :
  (task !! "taskid" = None →
   convert task result timestamp = Raise (KeyError "taskid"))
  ∧ (is_Some (task !! "taskid") → task !! "url" = None →
     convert task result timestamp = Raise (KeyError "url"))
  ∧ ((∃ doc, convert task result timestamp = Return doc)
     ↔ is_Some (task !! "taskid") ∧ is_Some (task !! "url")).
Proof.
  unfold convert, Py.getitem. split; [|split].
  - by intros ->.
  - by intros [taskid ->] ->.
  - destruct (task !! "taskid") as [taskid|], (task !! "url") as [url|];
      cbn [mbind outcome_bind]; split;
      try (by intros [doc [=]]); try (by intros [[? [=]] [? [=]]]);
      eauto.
Qed.

Lemma convert_key_errors_witness :
  convert ∅ example_record 100%float = Raise (KeyError "taskid")
  ∧ convert (<["taskid" := VStr "t1"]> ∅) example_record 100%float
    = Raise (KeyError "url").
Proof.
  split.
  - by apply (convert_key_errors ∅ example_record 100%float).
  - destruct (convert_key_errors (<["taskid" := VStr "t1"]> ∅) example_record
                100%float) as (_ & H & _).
    by apply H.
Defined.

(** X10: a second conversion overrides the first one completely:
    converting a converted document with another task and timestamp
    gives what converting the original record with them gives; and the
    keys of a converted document are the keys of the record together with
    id, url, version and crawled. *)
Theorem convert_overrides (task task' result doc : dict)
    (timestamp timestamp' : float) :
  convert task result timestamp = Return doc →
  convert task' doc timestamp' = convert task' result timestamp'
  ∧ dom doc = dom result ∪ list_to_set converter_keys.
Proof.
  intros (taskid & url & _ & _ & ->)%convert_return. split.
  - unfold convert.
    destruct (Py.getitem task' "taskid") as [taskid'|]; [|done].
    destruct (Py.getitem task' "url") as [url'|]; [|done].
    cbn [mbind outcome_bind Py.display foldl fst snd]. f_equal.
    apply map_eq. intros k. rewrite !lookup_insert.
    repeat destruct (decide _) as [?|?]; congruence.
  - rewrite !dom_insert_L. unfold converter_keys. cbn [list_to_set].
    apply set_eq. intros k.
    rewrite !elem_of_union, !elem_of_singleton, elem_of_empty. tauto.
Qed.

Lemma convert_overrides_witness :
  ∃ doc : dict,
    convert (Py.display ∅ [("taskid", VStr "t1"); ("url", VStr "http://x")])
      example_record 100%float = Return doc
    ∧ convert (Py.display ∅ [("taskid", VStr "t2"); ("url", VStr "http://y")])
        doc 200%float
      = convert (Py.display ∅ [("taskid", VStr "t2"); ("url", VStr "http://y")])
          example_record 200%float.
Proof.
  eexists. split; [reflexivity|].
  by apply (convert_overrides
              (Py.display ∅ [("taskid", VStr "t1"); ("url", VStr "http://x")])
              (Py.display ∅ [("taskid", VStr "t2"); ("url", VStr "http://y")])
              example_record _ 100%float 200%float).
Defined.

(** X11: converting a validated document touches none of its fields:
    the converted document holds the twelve fields as validation
    returned them and, besides, the four keys id, url, version and
    crawled. *)
Theorem convert_keeps_validated_fields (parse : string → outcome float)
    (now timestamp : float) (task record doc out : dict) :
  validate_response parse now record = Return doc →
  convert task doc timestamp = Return out →
  (∀ k, k ∈ document_keys → out !! k = doc !! k)
  ∧ dom out = list_to_set (document_keys ++ converter_keys)
  ∧ size out = 16%nat.
Proof.
  intros (p & t & b & n & sn & st & dt & lc & j & js & jm & im
          & _ & _ & _ & _ & _ & _ & _ & _ & _ & _ & _ & _
          & ->)%validate_response_inv
         (taskid & url & _ & _ & ->)%convert_return.
  pose proof (document_dom p t b n sn st dt lc j js jm im) as Hdom.
  cbv zeta in Hdom. set (doc := document _ _ _ _ _ _ _ _ _ _ _ _) in *.
  assert (dom (<["crawled" := VFloat timestamp]>
                 (<["version" := VFloat timestamp]>
                    (<["url" := url]> (<["id" := taskid]> doc))))
          = list_to_set (document_keys ++ converter_keys)) as Hout.
  { rewrite !dom_insert_L, Hdom. unfold document_keys, converter_keys.
    cbn [app list_to_set]. set_solver. }
  split; [|split].
  - intros k Hk. rewrite !lookup_insert_ne; [done|..];
      intros <-; revert Hk; by apply (bool_decide_unpack _).
  - exact Hout.
  - rewrite <- size_dom, Hout. by vm_compute.
Qed.

Lemma convert_keeps_validated_fields_witness :
  ∃ doc out : dict,
    validate_response example_parser 100%float example_record = Return doc
    ∧ convert (Py.display ∅ [("taskid", VStr "t1"); ("url", VStr "http://x")])
        doc 100%float = Return out
    ∧ out !! "body" = doc !! "body"
    ∧ size out = 16%nat.
Proof.
  assert (∃ doc, validate_response example_parser 100%float example_record
                 = Return doc)
    as [doc Hdoc] by (eexists; vm_compute; reflexivity).
  assert (∃ out,
            convert (Py.display ∅ [("taskid", VStr "t1"); ("url", VStr "http://x")])
              doc 100%float = Return out)
    as [out Hout] by (eexists; reflexivity).
  exists doc, out. split; [exact Hdoc|]. split; [exact Hout|].
  destruct (convert_keeps_validated_fields example_parser 100%float 100%float
              (Py.display ∅ [("taskid", VStr "t1"); ("url", VStr "http://x")])
              example_record doc out Hdoc Hout) as (H & _ & Hsize).
  split; [apply H; by apply (bool_decide_unpack _) | exact Hsize].
Defined.

(** ** The exceptions of validation *)

Lemma run_in_order_raise vs (record : dict) e :
  run_in_order vs record = Raise e → Exists (λ kv, kv.2 record = Raise e) vs.
Proof.
  induction vs as [|[k v] vs IH]; [done|]. cbn [run_in_order].
  destruct (v record) as [x|e'] eqn:Hv.
  - cbn [mbind outcome_bind].
    destruct (run_in_order vs record) as [l|e'']; [done|].
    intros [= ->]. apply Exists_cons_tl. by apply IH.
  - intros [= ->]. by apply Exists_cons_hd.
Qed.

Lemma alias_chain_source (record : dict) keys :
  alias_chain record keys ≠ VNone →
  ∃ k, k ∈ keys ∧ record !! k = Some (alias_chain record keys).
Proof.
  induction keys as [|k [|k' ks] IH]; [done| |].
  - cbn [alias_chain]. unfold Py.get. intros Hv. exists k.
    split; [constructor|]. by destruct (record !! k).
  - rewrite alias_chain_cons. unfold Py.or_.
    destruct (Py.truthy (Py.get record k VNone)) eqn:Hk.
    + intros _. exists k. split; [constructor|].
      unfold Py.get in *. by destruct (record !! k).
    + intros (k0 & Hk0 & Hv)%IH. exists k0. split; [by constructor | done].
Qed.

Lemma strip_method_raise v e :
  Py.strip_method v = Raise e → untyped e ∧ ∀ s, v ≠ VStr s.
Proof.
  destruct v; try done; intros [= <-]; (split; [left; by eexists | done]).
Qed.

Lemma re_match_raise p v e :
  Py.re_match p v = Raise e → untyped e ∧ ∀ s, v ≠ VStr s.
Proof.
  destruct v; try done; intros [= <-]; (split; [by right | done]).
Qed.

Lemma chain_raised_on_value (record : dict) keys e :
  untyped e →
  alias_chain record keys ≠ VNone →
  (∀ s, alias_chain record keys ≠ VStr s) →
  keys ⊆ read_keys → "published" ∉ keys →
  raised_on_value record e.
Proof.
  intros He (k & Hk & Hv)%alias_chain_source Hns Hsub Hp.
  split; [done|]. exists k, (alias_chain record keys).
  repeat split; [by apply Hsub | by intros -> | done | done].
Qed.

Lemma required_name_raise_cause msg v e :
  required_name msg v = Raise e →
  e = ValueError msg ∨ (untyped e ∧ v ≠ VNone ∧ ∀ s, v ≠ VStr s).
Proof.
  unfold required_name. destruct (Py.is_none v || Py.not_ v) eqn:Hv.
  - intros [= <-]. by left.
  - destruct (Py.strip_method v) as [s|e'] eqn:Hs; [done|].
    intros [= ->]. right. apply strip_method_raise in Hs as [? ?].
    repeat split; [done | | done]. by intros ->.
Qed.

Lemma optional_part_raise_cause v e :
  optional_part v = Raise e → untyped e ∧ v ≠ VNone ∧ ∀ s, v ≠ VStr s.
Proof.
  intros He. pose proof (optional_part_raise v e He) as ->.
  destruct v as [|b|n|x|s]; try done;
    try (repeat split; [left; by eexists | done | done]).
  rewrite optional_part_str in He. by destruct (whitespace_only s).
Qed.

Lemma validate_published_raise parse now (record : dict) e :
  validate_published parse now record = Raise e →
  is_Some (kind_of e) ∨ raised_by_parser parse record e.
Proof.
  unfold validate_published, Py.get.
  destruct (record !! "published") as [[|b|n|x|s]|] eqn:Hp; simpl; try done;
    try (intros [= <-]; left; by eexists).
  - destruct (PrimFloat.ltb 0 x); [done|]. intros [= <-]. left. by eexists.
  - unfold parsedate. destruct (parse s) as [g|e'] eqn:Hs; [done|].
    destruct e'; simpl; try done; intros [= <-]; right; by exists s.
Qed.

Lemma validate_title_raise (record : dict) e :
  validate_title record = Raise e → raised_on_value record e.
Proof.
  unfold validate_title, Py.get.
  destruct (record !! "title") as [v|] eqn:Ht; [|done]. simpl.
  destruct (Py.strip_method v) as [s|e'] eqn:Hs; [done|].
  intros [= ->]. apply strip_method_raise in Hs as [? ?].
  split; [done|]. exists "title", v.
  repeat split; [by apply (bool_decide_unpack _) | done..].
Qed.

Lemma validate_body_raise (record : dict) e :
  validate_body record = Raise e →
  is_Some (kind_of e) ∨ raised_on_value record e.
Proof.
  unfold validate_body, Py.get.
  destruct (record !! "body") as [v|] eqn:Hb; simpl;
    [|intros [= <-]; left; by eexists].
  destruct (Py.is_none v); [intros [= <-]; left; by eexists|].
  destruct (Py.strip_method v) as [s|e'] eqn:Hs; simpl.
  - destruct (Py.not_ (VStr s)); [|done]. intros [= <-]. left. by eexists.
  - intros [= ->]. apply strip_method_raise in Hs as [? ?]. right.
    split; [done|]. exists "body", v.
    repeat split; [by apply (bool_decide_unpack _) | done..].
Qed.

Lemma validate_lang_raise (record : dict) e :
  validate_lang record = Raise e →
  is_Some (kind_of e) ∨ raised_on_value record e.
Proof.
  destruct (alias_chain record lang_keys) as [|b|n|x|s] eqn:Hc.
  1: { rewrite (validate_lang_none record Hc). intros [= <-]. left. by eexists. }
  4: { rewrite (validate_lang_str record s Hc).
       destruct (Py.matches_prefix simple_re s); [done|].
       intros [= <-]. left. by eexists. }
  all: intros He; right;
    apply (chain_raised_on_value record lang_keys);
    [ | by rewrite Hc | by rewrite Hc
      | by apply (bool_decide_unpack _) | by apply (bool_decide_unpack _) ];
    unfold lang_keys in Hc; cbn [alias_chain] in Hc;
    unfold validate_lang in He; rewrite Hc in He;
    injection He as <-; by right.
Qed.

Lemma validate_jurisdiction_raise (record : dict) e :
  validate_jurisdiction record = Raise e →
  is_Some (kind_of e) ∨ raised_on_value record e.
Proof.
  destruct (alias_chain record jurisdiction_keys) as [|b|n|x|s] eqn:Hc.
  1: { rewrite (validate_jurisdiction_none record Hc).
       intros [= <-]. left. by eexists. }
  4: { rewrite (validate_jurisdiction_str record s Hc).
       destruct (whitespace_only s); [intros [= <-]; left; by eexists|].
       destruct (Py.matches_prefix iso3166_re (Py.strip s)); [done|].
       intros [= <-]. left. by eexists. }
  all: intros He; right;
    apply (chain_raised_on_value record jurisdiction_keys);
    [ | by rewrite Hc | by rewrite Hc
      | by apply (bool_decide_unpack _) | by apply (bool_decide_unpack _) ];
    unfold jurisdiction_keys in Hc; cbn [alias_chain] in Hc;
    unfold validate_jurisdiction in He; rewrite Hc in He;
    injection He as <-; left; by eexists.
Qed.

(** X12: an exception of validation is one of the ten value errors of
    the four kinds, or an exception other than [ParserError] that the
    parser raised on the published string, or the attribute or type
    error of a string operation, and then some key that validation
    reads, other than published, holds a value that is not a string.
    So a record whose values, published apart, are all strings fails
    with one of the four kinds or with the parser's exception only. *)
Theorem validation_exceptions (parse : string → outcome float) (now : float)
    (record : dict) (e : exn) :
  validate_response parse now record = Raise e →
  (is_Some (kind_of e) ∨ raised_by_parser parse record e
   ∨ raised_on_value record e)
  ∧ ((∀ k v, k ≠ "published" → record !! k = Some v → ∃ s, v = VStr s) →
     is_Some (kind_of e) ∨ raised_by_parser parse record e).
Proof.
  intros He.
  assert (is_Some (kind_of e) ∨ raised_by_parser parse record e
          ∨ raised_on_value record e) as Hcases.
  { rewrite validate_response_in_order in He.
    destruct (run_in_order (validation_order parse now) record) as [l|e']
      eqn:Hrun; [done|].
    injection He as ->. apply run_in_order_raise in Hrun.
    unfold validation_order in Hrun.
    rewrite !Exists_cons, Exists_nil in Hrun. cbn [snd] in Hrun.
    destruct Hrun as [H|[H|[H|[H|[H|[H|[H|[H|[H|[H|[H|[H|[]]]]]]]]]]]]].
    - apply validate_published_raise in H. tauto.
    - apply validate_title_raise in H. tauto.
    - apply validate_body_raise in H. tauto.
    - rewrite validate_institution_name_chain in H.
      apply required_name_raise_cause in H as [-> | (Hu & Hn & Hs)].
      + left. by eexists.
      + right; right. apply (chain_raised_on_value record name_keys);
          [done.. | by apply (bool_decide_unpack _)
           | by apply (bool_decide_unpack _)].
    - rewrite validate_short_institution_name_chain in H.
      apply required_name_raise_cause in H as [-> | (Hu & Hn & Hs)].
      + left. by eexists.
      + right; right. apply (chain_raised_on_value record short_name_keys);
          [done.. | by apply (bool_decide_unpack _)
           | by apply (bool_decide_unpack _)].
    - unfold validate_source_type in H. by destruct (_ || _).
    - unfold validate_document_type in H. by destruct (_ || _).
    - apply validate_lang_raise in H. tauto.
    - apply validate_jurisdiction_raise in H. tauto.
    - rewrite validate_jurisdiction_state_chain in H.
      apply optional_part_raise_cause in H as (Hu & Hn & Hs).
      right; right. apply (chain_raised_on_value record state_keys);
        [done.. | by apply (bool_decide_unpack _)
         | by apply (bool_decide_unpack _)].
    - rewrite validate_jurisdiction_municipality_chain in H.
      apply optional_part_raise_cause in H as (Hu & Hn & Hs).
      right; right. apply (chain_raised_on_value record municipality_keys);
        [done.. | by apply (bool_decide_unpack _)
         | by apply (bool_decide_unpack _)].
    - done. }
  split; [done|]. intros Hstr.
  destruct Hcases as [H | [H | (_ & k & v & _ & Hk & Hv & Hns)]]; [tauto..|].
  destruct (Hstr k v Hk Hv) as [s ->]. by destruct (Hns s).
Qed.

Lemma validation_exceptions_witness :
  is_Some (kind_of (AttributeError "int" "strip"))
  ∨ raised_by_parser example_parser (<["short" := VInt 7]> (delete "short_name" example_record))
      (AttributeError "int" "strip")
  ∨ raised_on_value (<["short" := VInt 7]> (delete "short_name" example_record))
      (AttributeError "int" "strip").
Proof.
  apply (validation_exceptions example_parser 100%float
           (<["short" := VInt 7]> (delete "short_name" example_record))).
  vm_compute; reflexivity.
Defined.

(** ** The clock *)



(** ** The records that validation accepts *)

Lemma validate_published_returns parse now (record : dict) :
  (∃ p, validate_published parse now record = Return p)
  ↔ published_ok parse record.
Proof.
  unfold validate_published, published_ok, Py.get.
  destruct (record !! "published") as [[|b|n|x|s]|]; simpl.
  - split; eauto.
  - split; [by intros [? [=]] | done].
  - split; [by intros [? [=]] | done].
  - destruct (PrimFloat.ltb 0 x); split; eauto; try done; by intros [? [=]].
  - unfold parsedate. destruct (parse s) as [g|e]; simpl.
    + split; [by intros _ e [=] | eauto].
    + split.
      * intros [p Hp] e' [= <-]. by destruct e.
      * intros He. rewrite (He e eq_refl). eauto.
  - split; eauto.
Qed.

Lemma validate_title_returns (record : dict) :
  (∃ t, validate_title record = Return t)
  ↔ record !! "title" = None ∨ ∃ s, record !! "title" = Some (VStr s).
Proof.
  unfold validate_title, Py.get.
  destruct (record !! "title") as [[|b|n|x|s]|]; simpl; split; eauto;
    try (by intros [? [=]]); by intros [[=] | [? [=]]].
Qed.

Lemma validate_body_returns (record : dict) :
  (∃ b, validate_body record = Return b)
  ↔ ∃ s, record !! "body" = Some (VStr s) ∧ whitespace_only s = false.
Proof.
  split.
  - intros [b (s & Hs & _ & Hne)%validate_body_return]. exists s.
    split; [done|]. destruct (whitespace_only s) eqn:Hw; [|done].
    by apply strip_empty in Hw.
  - intros (s & Hs & Hw). rewrite (validate_body_str record s Hs), Hw. eauto.
Qed.

Lemma required_name_returns msg v :
  (∃ x, required_name msg v = Return x) ↔ ∃ s, v = VStr s ∧ s ≠ "".
Proof.
  split.
  - intros [x (s & -> & Hs & _)%required_name_return]. eauto.
  - intros (s & -> & Hs). rewrite required_name_str by done. eauto.
Qed.

Lemma validate_lang_returns (record : dict) :
  (∃ v, validate_lang record = Return v)
  ↔ ∃ s, alias_chain record lang_keys = VStr s
         ∧ Py.matches_prefix simple_re s = true.
Proof.
  split.
  - intros [v (s & _ & Hc & Hs)%validate_lang_return]. eauto.
  - intros (s & Hc & Hs). rewrite (validate_lang_str record s Hc), Hs. eauto.
Qed.

Lemma validate_jurisdiction_returns (record : dict) :
  (∃ v, validate_jurisdiction record = Return v)
  ↔ ∃ s, alias_chain record jurisdiction_keys = VStr s
         ∧ Py.matches_prefix iso3166_re (Py.strip s) = true.
Proof.
  split.
  - intros [v Hv].
    destruct (alias_chain record jurisdiction_keys) as [|b|n|x|s] eqn:Hc.
    + by rewrite (validate_jurisdiction_none record Hc) in Hv.
    + unfold jurisdiction_keys in Hc. cbn [alias_chain] in Hc.
      unfold validate_jurisdiction in Hv. by rewrite Hc in Hv.
    + unfold jurisdiction_keys in Hc. cbn [alias_chain] in Hc.
      unfold validate_jurisdiction in Hv. by rewrite Hc in Hv.
    + unfold jurisdiction_keys in Hc. cbn [alias_chain] in Hc.
      unfold validate_jurisdiction in Hv. by rewrite Hc in Hv.
    + rewrite (validate_jurisdiction_str record s Hc) in Hv. exists s.
      split; [done|]. destruct (whitespace_only s); [done|].
      by destruct (Py.matches_prefix iso3166_re (Py.strip s)).
  - intros (s & Hc & Hm). rewrite (validate_jurisdiction_str record s Hc).
    destruct (whitespace_only s) eqn:Hw.
    + apply strip_empty in Hw. by rewrite Hw in Hm.
    + rewrite Hm. eauto.
Qed.

Lemma optional_part_returns v :
  (∃ x, optional_part v = Return x) ↔ none_or_str v.
Proof.
  destruct v as [|b|n|x|s]; cbn [none_or_str]; split; try done;
    try (by intros [? [=]]).
  - by exists VNone.
  - intros _. rewrite optional_part_str. destruct (whitespace_only s); eauto.
Qed.

(** X14: validation returns a document exactly for the records that
    satisfy the nine conditions of [acceptable]: published is absent,
    none, a strictly positive float or a string on which the parser
    raises nothing but a [ParserError]; title is absent or a string; body
    is a string that is not blank; the chains of the name and of the
    short name yield a string that is not empty; the chain of the
    language yields a string that starts with two lowercase letters; the
    chain of the jurisdiction yields a string that starts, once trimmed,
    with two uppercase letters; and the chains of the state and of the
    municipality yield none or a string. *)
Theorem validation_accepts (parse : string → outcome float) (now : float)
    (record : dict) :
  (∃ doc, validate_response parse now record = Return doc)
  ↔ acceptable parse record.
Proof.
  unfold acceptable.
  rewrite <- (validate_published_returns parse now), <- validate_title_returns,
    <- validate_body_returns,
    <- (required_name_returns "Institution name missing"),
    <- (required_name_returns "Short institution name missing"),
    <- validate_lang_returns, <- validate_jurisdiction_returns,
    <- !optional_part_returns.
  rewrite <- validate_institution_name_chain,
    <- validate_short_institution_name_chain,
    <- validate_jurisdiction_state_chain,
    <- validate_jurisdiction_municipality_chain.
  split.
  - intros [doc (p & t & b & n & sn & st & dt & lc & j & js & jm & im
                 & Hp & Ht & Hb & Hn & Hsn & Hst & Hdt & Hlc & Hj & Hjs & Hjm
                 & Him & _)%validate_response_inv].
    repeat split; eauto.
  - intros ([p Hp] & [t Ht] & [b Hb] & [n Hn] & [sn Hsn] & [lc Hlc] & [j Hj]
            & [js Hjs] & [jm Hjm]).
    assert (∃ st, validate_source_type record = Return st) as [st Hst]
      by (unfold validate_source_type; destruct (_ || _); eauto).
    assert (∃ dt, validate_document_type record = Return dt) as [dt Hdt]
      by (unfold validate_document_type; destruct (_ || _); eauto).
    eexists. apply validate_response_intro; first [eassumption | reflexivity].
Qed.
